(** * The Model / Collection layer of the Cytomine Python client

    A shallow embedding of [cytomine/models/model.py],
    [cytomine/models/collection.py] and the entity kinds of
    [cytomine/models/user.py], [cytomine/models/property.py] and
    [cytomine/models/ontology.py] that the stated properties are about.

    - An entity is a Python object: its class, its attribute dictionary
      ([__dict__], a finite map from attribute names to values) and, for a
      domain-scoped entity, the reference to its owner.
    - Entities live in a store indexed by locations, so that an owner and
      the domain-scoped entity built around it are two objects, one holding
      a reference to the other.
    - A method that reads and writes attributes, raises or calls the
      transport is a computation over the store that returns a result or an
      exception; every transport call is recorded in the order it is made.
    - The transport ([Cytomine.get_instance()]) is an external collaborator:
      it is a parameter of the model. *)

From stdpp Require Import gmap strings list fin_maps pretty.

Open Scope string_scope.

(** ** Values and strings *)

(** The values an attribute, a filter or an identifier takes: [None],
    booleans, integers and strings. *)
Inductive value :=
  | VNone
  | VBool (b : bool)
  | VInt (z : Z)
  | VStr (s : string).

#[global] Instance value_eq_dec : EqDecision value.
Proof. solve_decision. Defined.

(** [v is None] *)
Definition is_None (v : value) : bool :=
  match v with VNone => true | _ => false end.

(** [str(v)], which is what ["{}".format(v)] inserts. *)
Definition str (v : value) : string :=
  match v with
  | VNone => "None"
  | VBool true => "True"
  | VBool false => "False"
  | VInt z => pretty z
  | VStr s => s
  end.

(** [s.startswith(p)] *)
Definition startswith (s p : string) : bool := String.prefix p s.

(** [s[n:]] *)
Definition str_from (n : nat) (s : string) : string :=
  String.substring n (String.length s - n) s.

Definition lower_ascii (c : Ascii.ascii) : Ascii.ascii :=
  let n := Ascii.nat_of_ascii c in
  if (65 <=? n)%nat && (n <=? 90)%nat then Ascii.ascii_of_nat (n + 32) else c.

(** [s.lower()] on the ASCII names of the classes. *)
Fixpoint lower (s : string) : string :=
  match s with
  | EmptyString => EmptyString
  | String c t => String (lower_ascii c) (lower t)
  end.

(** A Python dict with string keys, in insertion order. *)
Abbreviation pydict := (list (string * value)).

(** [s.replace(old, new)] for a pattern [old] that is not empty: the
    occurrences are replaced from left to right and do not overlap.
    [skip] counts the characters of an occurrence that is being skipped. *)
Fixpoint replace_from (old new : string) (skip : nat) (s : string) : string :=
  match s with
  | EmptyString => EmptyString
  | String c t =>
      match skip with
      | S k => replace_from old new k t
      | O =>
          if String.prefix old s then
            new ++ replace_from old new (String.length old - 1) t
          else String c (replace_from old new 0 t)
      end
  end.

Definition replace (old new s : string) : string := replace_from old new 0 s.

Abbreviation py_value := value.

(** The truth value of [v], as [if v:] and [and] take it. *)
Definition truthy (v : value) : bool :=
  match v with
  | VNone => false
  | VBool b => b
  | VInt z => negb (z =? 0)%Z
  | VStr s => negb (String.eqb s "")
  end.

(** [a == b]: [None] equals itself only, booleans compare as the integers
    0 and 1, strings compare with strings. *)
Definition as_number (v : value) : option Z :=
  match v with
  | VBool b => Some (if b then 1 else 0)%Z
  | VInt z => Some z
  | _ => None
  end.

Definition py_eq (a b : value) : bool :=
  match a, b with
  | VNone, VNone => true
  | VStr s, VStr t => String.eqb s t
  | _, _ =>
      match as_number a, as_number b with
      | Some x, Some y => (x =? y)%Z
      | _, _ => false
      end
  end.

(** [d[k] = v] on a dict: the value is replaced where the key is, and the
    item is added at the end when the key is new. *)
Fixpoint dict_set (k : string) (v : value) (d : pydict) : pydict :=
  match d with
  | [] => [(k, v)]
  | (k', v') :: t =>
      if String.eqb k' k then (k, v) :: t else (k', v') :: dict_set k v t
  end.

(** [k in d] *)
Definition dict_has (k : string) (d : pydict) : bool :=
  existsb (fun kv => String.eqb kv.1 k) d.

(** ** Exceptions and results *)

Inductive exn :=
  | ValueError (msg : string)
  | TypeError (msg : string)
  | NotImplementedError (msg : string)
  | AttributeError (name : string)
  | IndexError
  | CollectionPartialUploadException (desc : string) (created failed : list positive).

Inductive res (A : Type) :=
  | Ok (a : A)
  | Raise (e : exn).
Arguments Ok {A} a.
Arguments Raise {A} e.

(** The rest of a computation that may raise. *)
Definition and_then {A B} (r : res A) (k : A -> res B) : res B :=
  match r with
  | Ok a => k a
  | Raise e => Raise e
  end.

(** ** Classes and objects *)

(** A class: its name, the names of the classes of its method resolution
    order (itself first), the [callback_identifier] it overrides, if it
    does, and the attributes its constructor assigns after the constructor
    of its base class when it is called with the default arguments. *)
Record class := Class {
  __name__ : string;
  __mro__ : list string;
  callback_override : option string;
  fields : pydict
}.

Definition loc := positive.

(** An object: its class, its data attributes ([__dict__]: the public
    attributes and the private ones that hold a value), and the two
    private attributes that hold a structure, the query parameters and,
    for a domain-scoped entity, the reference to the owner. When the
    attribute [_object] is assigned a value that is not an entity, it
    holds no reference and the value is in [__dict__]. *)
Record object := Object {
  __class__ : class;
  __dict__ : gmap string value;
  _query_parameters : pydict;
  _object : option loc
}.

(** [isinstance(o, c)] *)
Definition isinstance (o : object) (c : class) : bool :=
  bool_decide (__name__ c ∈ __mro__ (__class__ o)).

(** [o.k], the read of an attribute. *)
Definition attr (o : object) (k : string) : res value :=
  match __dict__ o !! k with
  | Some v => Ok v
  | None => Raise (AttributeError k)
  end.

(** [o.k = v] on a data attribute: the attribute is created if the object
    does not have it. *)
Definition setattr (o : object) (k : string) (v : value) : object :=
  Object (__class__ o) (<[k := v]> (__dict__ o)) (_query_parameters o) (_object o).

(** [issubclass(c, <the class named name>)] *)
Definition derives_from (name : string) (c : class) : bool :=
  bool_decide (name ∈ __mro__ c).

(** The properties that the classes of the sources define. [Model] defines
    [query_parameters] and [callback_identifier], which have no setter
    (the classes that override [callback_identifier] give it none either);
    [DomainModel] defines [obj], which has one. *)
Definition read_only_property (c : class) (name : string) : bool :=
  derives_from "Model" c
  && (String.eqb name "query_parameters" || String.eqb name "callback_identifier").

Definition settable_property (c : class) (name : string) : bool :=
  derives_from "DomainModel" c && String.eqb name "obj".

(** The entity classes of the sources. *)
Module Classes.
Definition Model := Class "Model" ["Model"] None [].
Definition DomainModel := Class "DomainModel" ["DomainModel"; "Model"] None [].
Definition user_fields : pydict :=
  [("username", VNone); ("firstname", VNone); ("lastname", VNone);
   ("email", VNone); ("password", VNone); ("language", VNone);
   ("isDeveloper", VNone); ("user", VNone); ("admin", VNone);
   ("guest", VNone)].
Definition User := Class "User" ["User"; "Model"; "CytomineUser"] None user_fields.
Definition CurrentUser :=
  Class "CurrentUser" ["CurrentUser"; "User"; "Model"; "CytomineUser"] None
    (user_fields ++ [("id", VInt 0); ("publicKey", VNone); ("privateKey", VNone)]).
Definition Group := Class "Group" ["Group"; "Model"] None
  [("name", VNone); ("gid", VNone)].
Definition UserGroup := Class "UserGroup" ["UserGroup"; "Model"] None
  [("user", VNone); ("group", VNone)].
Definition Role := Class "Role" ["Role"; "Model"] None [("authority", VNone)].
Definition UserRole :=
  Class "UserRole" ["UserRole"; "Model"] (Some "secusersecrole")
    [("user", VNone); ("role", VNone); ("authority", VNone)].
Definition Property :=
  Class "Property" ["Property"; "DomainModel"; "Model"] None
    [("key", VNone); ("value", VNone); ("_by_key", VBool false)].
Definition Description :=
  Class "Description" ["Description"; "DomainModel"; "Model"] None
    [("data", VNone)].
Definition Tag := Class "Tag" ["Tag"; "Model"] None [("name", VNone)].
Definition UserJob :=
  Class "UserJob" ["UserJob"; "Model"; "CytomineUser"] (Some "userJob")
    [("algo", VBool true); ("humanUsername", VNone); ("publicKey", VNone);
     ("privateKey", VNone); ("job", VNone); ("software", VNone); ("project", VNone);
     ("publicKey", VNone); ("privateKey", VNone)].
Definition AttachedFile :=
  Class "AttachedFile" ["AttachedFile"; "DomainModel"; "Model"] None
    [("filename", VNone); ("file", VNone); ("url", VNone)].
Definition TagDomainAssociation :=
  Class "TagDomainAssociation" ["TagDomainAssociation"; "DomainModel"; "Model"]
    (Some "tag_domain_association") [("tag", VNone)].
Definition Ontology := Class "Ontology" ["Ontology"; "Model"] None
  [("name", VNone); ("user", VNone); ("title", VNone); ("attr", VNone);
   ("data", VNone); ("isFolder", VNone); ("key", VNone); ("children", VNone)].
Definition Term := Class "Term" ["Term"; "Model"] None
  [("name", VNone); ("ontology", VNone); ("parent", VNone); ("color", VNone)].
Definition RelationTerm := Class "RelationTerm" ["RelationTerm"; "Model"] None
  [("term1", VNone); ("term2", VNone)].
Definition Project := Class "Project" ["Project"; "Model"] None
  [("name", VNone); ("ontology", VNone); ("ontologyName", VNone);
   ("blindMode", VNone); ("numberOfSlides", VNone); ("numberOfImages", VNone);
   ("numberOfAnnotations", VNone); ("retrievalProjects", VNone);
   ("numberOfReviewedAnnotations", VNone); ("retrievalDisable", VNone);
   ("retrievalAllOntology", VNone); ("isClosed", VNone); ("isReadOnly", VNone);
   ("hideUsersLayers", VNone); ("hideAdminsLayers", VNone); ("admins", VNone);
   ("users", VNone); ("mode", VNone)].
Definition AbstractImage := Class "AbstractImage" ["AbstractImage"; "Model"] None
  [("filename", VNone); ("path", VNone); ("mime", VNone);
   ("originalFilename", VNone); ("width", VNone); ("height", VNone);
   ("resolution", VNone); ("magnification", VNone); ("bitDepth", VNone);
   ("colorspace", VNone); ("thumb", VNone); ("preview", VNone);
   ("_image_servers", VNone)].
Definition ImageInstance := Class "ImageInstance" ["ImageInstance"; "Model"] None
  [("baseImage", VNone); ("project", VNone); ("user", VNone); ("filename", VNone);
   ("originalFilename", VNone); ("instanceFilename", VNone); ("path", VNone);
   ("mime", VNone); ("width", VNone); ("height", VNone); ("resolution", VNone);
   ("magnification", VNone); ("bitDepth", VNone); ("colorspace", VNone);
   ("preview", VNone); ("thumb", VNone); ("numberOfAnnotations", VNone);
   ("numberOfJobAnnotations", VNone); ("numberOfReviewedAnnotations", VNone);
   ("reviewed", VNone); ("_image_servers", VNone)].

End Classes.

(** ** The store, the transport and computations *)

(** The four entity operations of the transport, and the upload of a file. *)
Inductive verb := GET_MODEL | POST_MODEL | PUT_MODEL | DELETE_MODEL | UPLOAD_FILE.

(** A transport call: the operation, the entity it is given and the state
    of that entity when the call is made. *)
Record request := Request {
  req_verb : verb;
  req_self : loc;
  req_entity : object
}.

(** What a transport call does: the state it leaves the entity in (the
    transport populates the entity from the response) and whether it
    returns the entity ([true]) or [False]. *)
Record reply := Reply {
  reply_entity : object;
  reply_ok : bool
}.

(** The transport ([cytomine/cytomine.py], which is not among the sources),
    with the state of the remote server it talks to: the entity methods
    are modelled for any transport. *)
Record Transport := {
  server : Type;
  exchange : server -> verb -> object -> server * reply
}.

(** A computation over a state [S] runs to a result or an exception and
    the state it leaves: an exception does not roll back the writes made
    before it. *)
Definition M (S A : Type) : Type := S -> res A * S.

Definition ret {S A} (a : A) : M S A := fun s => (Ok a, s).

Definition bind {S A B} (c : M S A) (k : A -> M S B) : M S B :=
  fun s =>
    match c s with
    | (Ok a, s') => k a s'
    | (Raise e, s') => (Raise e, s')
    end.

Definition raise {S A} (e : exn) : M S A := fun s => (Raise e, s).

(** The current state. *)
Definition get {S} : M S S := fun s => (Ok s, s).

Notation "x <~ c ;; k" := (bind c (fun x => k))
  (at level 100, c at next level, right associativity).
Notation "c ;;; k" := (bind c (fun _ => k))
  (at level 100, right associativity).

(** [for a in l: f(a)] *)
Fixpoint for_each {S A} (f : A -> M S unit) (l : list A) : M S unit :=
  match l with
  | [] => ret tt
  | a :: t => f a ;;; for_each f t
  end.

(** The state of the entity methods: the store, the remote server and the
    transport calls made so far. *)
Record world (T : Transport) := World {
  heap : gmap loc object;
  remote : server T;
  calls : list request
}.
Arguments World {T} heap remote calls.
Arguments heap {T} w.
Arguments remote {T} w.
Arguments calls {T} w.

Section Store.
Context {T : Transport}.

(** The result of a method of the object at [l] that only reads it. *)
Definition read {A} (l : loc) (f : object -> res A) : M (world T) A :=
  fun w =>
    match heap w !! l with
    | Some o => (f o, w)
    | None => (Raise (AttributeError "unbound reference"), w)
    end.

(** An in-place update of the object at [l]. *)
Definition write (l : loc) (f : object -> object) : M (world T) unit :=
  fun w => (Ok tt, World (alter f l (heap w)) (remote w) (calls w)).

(** A method of the object at [l] that reads and writes it and may raise:
    the writes made before an exception stay. *)
Definition on_object {A} (l : loc) (m : M object A) : M (world T) A :=
  fun w =>
    match heap w !! l with
    | Some o =>
        let '(r, o') := m o in
        (r, World (<[l := o']> (heap w)) (remote w) (calls w))
    | None => (Raise (AttributeError "unbound reference"), w)
    end.

(** A constructor call allocates the object, then runs [__init__] on it. *)
Definition new (c : class) (init : loc -> M (world T) unit) : M (world T) loc :=
  fun w =>
    let l := fresh (dom (heap w)) in
    let w' := World (<[l := Object c ∅ [] None]> (heap w)) (remote w) (calls w) in
    match init l w' with
    | (Ok _, w'') => (Ok l, w'')
    | (Raise e, w'') => (Raise e, w'')
    end.

(** A call of the transport on the entity at [l]: recorded, answered by
    the transport, its effect on the entity written back. *)
Definition transport (v : verb) (l : loc) : M (world T) bool :=
  fun w =>
    match heap w !! l with
    | Some o =>
        let '(s, r) := exchange T (remote w) v o in
        (Ok (reply_ok r),
         World (<[l := reply_entity r]> (heap w)) s (calls w ++ [Request v l o]))
    | None => (Raise (AttributeError "unbound reference"), w)
    end.
End Store.

(** ** The methods that [self.update()] and [self.save()] resolve to *)

(** [update] and [save] are looked up along the method resolution order of
    the class of the entity. Of the classes of the sources, [Model] defines
    both; [UserGroup], [UserRole], [Role] and [RelationTerm] define an
    [update] that raises, [Role] a [save] that raises, and [AttachedFile]
    an [update] and a [save] that upload the file. *)
Inductive method :=
  | Of_Model
  | Rejected (msg : string)
  | Uploads.

Definition update_defined_by (name : string) : option method :=
  if String.eqb name "Model" then Some Of_Model
  else if String.eqb name "UserGroup" then Some (Rejected "Cannot update a user-group.")
  else if String.eqb name "UserRole" then Some (Rejected "Cannot update a user-role.")
  else if String.eqb name "Role" then Some (Rejected "Cannot update a role by client.")
  else if String.eqb name "RelationTerm" then
    Some (Rejected "Cannot update a relation-term.")
  else if String.eqb name "AttachedFile" then Some Uploads
  else None.

Definition save_defined_by (name : string) : option method :=
  if String.eqb name "Model" then Some Of_Model
  else if String.eqb name "Role" then Some (Rejected "Cannot save a new role by client.")
  else if String.eqb name "AttachedFile" then Some Uploads
  else None.

(** The first class of the method resolution order that defines the method. *)
Fixpoint resolve (defined_by : string -> option method) (mro : list string)
    : option method :=
  match mro with
  | [] => None
  | name :: rest =>
      match defined_by name with
      | Some m => Some m
      | None => resolve defined_by rest
      end
  end.

Definition update_of (c : class) : option method := resolve update_defined_by (__mro__ c).
Definition save_of (c : class) : option method := resolve save_defined_by (__mro__ c).

(** ** property.py: [AttachedFile.upload] *)

Module AttachedFile.
Section Methods.
Context {T : Transport}.

(** [upload]: the arguments of [upload_file] are read from the entity, from
    left to right, before the call. *)
Definition upload (self : loc) : M (world T) bool :=
  file <~ read self (fun o => attr o "file") ;;
  if truthy file then
    read self (fun o => attr o "domainClassName") ;;;
    read self (fun o => attr o "domainIdent") ;;;
    read self (fun o => attr o "filename") ;;;
    transport UPLOAD_FILE self
  else
    read self (fun o => attr o "filename") ;;;
    read self (fun o => attr o "domainClassName") ;;;
    read self (fun o => attr o "domainIdent") ;;;
    transport UPLOAD_FILE self.
End Methods.
End AttachedFile.

(** ** model.py: [Model] *)

Module Model.

(** [is_new]: [self.id is None] *)
Definition is_new (self : object) : res bool :=
  match attr self "id" with
  | Ok v => Ok (is_None v)
  | Raise e => Raise e
  end.

(** [setattr(self, key, value)] with a value of the mapping. A property
    without a setter refuses the assignment. The setter of [obj] runs
    [self._object = value], then [value.class_], which no value that is
    not an entity has: the reference to the owner is replaced by the value
    before the attribute error is raised. Any other name is a data
    attribute. *)
Definition set_attribute (key : string) (value : py_value) : M object unit :=
  fun self =>
    if read_only_property (__class__ self) key then (Raise (AttributeError key), self)
    else if settable_property (__class__ self) key then
      (Raise (AttributeError "class_"),
       Object (__class__ self) (<["_object" := value]> (__dict__ self))
              (_query_parameters self) None)
    else (Ok tt, setattr self key value).

(** The body of the loop of [populate], for one item of the mapping. *)
Definition populate_item (item : string * value) : M object unit :=
  let '(key, value) := item in
  let key := if startswith key "id_" then str_from 3 key else key in
  let key := if String.eqb key "uri" then "uri_" else key in
  if negb (startswith key "_") then
    let key := if String.eqb key "class" then key ++ "_" else key in
    set_attribute key value
  else ret tt.

(** [populate]: the items are taken in the order of the mapping, and the
    first assignment that raises ends the loop. *)
Definition populate (attributes : pydict) : M object unit :=
  match attributes with
  | [] => ret tt
  | _ => for_each populate_item attributes
  end.

(** [to_json]: the dictionary [d] that is handed to [json.dumps]. *)
Definition to_json (self : object) : gmap string value :=
  let d :=
    filter (fun kv => negb (is_None kv.2) && negb (startswith kv.1 "_"))
           (__dict__ self) in
  match d !! "uri_" with
  | Some u => <["uri" := u]> (delete "uri_" d)
  | None => d
  end.

(** [callback_identifier]: the lower-cased name of the class, unless the
    class overrides the property. *)
Definition callback_identifier (self : object) : string :=
  match callback_override (__class__ self) with
  | Some s => s
  | None => lower (__name__ (__class__ self))
  end.

(** [uri] *)
Definition uri (self : object) : res string :=
  match is_new self with
  | Ok true => Ok (callback_identifier self ++ ".json")
  | Ok false =>
      match attr self "id" with
      | Ok i => Ok (callback_identifier self ++ "/" ++ str i ++ ".json")
      | Raise e => Raise e
      end
  | Raise e => Raise e
  end.

Section Methods.
Context {T : Transport}.

(** [__init__] *)
Definition __init__ (self : loc) : M (world T) unit :=
  write self (fun o => Object (__class__ o) (__dict__ o) [] (_object o)) ;;;
  write self (fun o => setattr o "id" VNone) ;;;
  write self (fun o => setattr o "created" VNone) ;;;
  write self (fun o => setattr o "updated" VNone) ;;;
  write self (fun o => setattr o "deleted" VNone) ;;;
  write self (fun o => setattr o "name" VNone).

(** [fetch] *)
Definition fetch (self : loc) (id : value) : M (world T) bool :=
  self_id <~ read self (fun o => attr o "id") ;;
  if is_None self_id && is_None id then
    raise (ValueError "Cannot fetch a model with no ID.")
  else
    (if negb (is_None id) then write self (fun o => setattr o "id" id)
     else ret tt) ;;;
    transport GET_MODEL self.

(** [delete] *)
Definition delete (self : loc) (id : value) : M (world T) bool :=
  self_id <~ read self (fun o => attr o "id") ;;
  if is_None self_id && is_None id then
    raise (ValueError "Cannot delete a model with no ID.")
  else
    (if negb (is_None id) then write self (fun o => setattr o "id" id)
     else ret tt) ;;;
    transport DELETE_MODEL self.

(** [update] *)
Definition update (self : loc) (id : value) (attributes : pydict) : M (world T) bool :=
  self_id <~ read self (fun o => attr o "id") ;;
  if is_None self_id && is_None id then
    raise (ValueError "Cannot update a model with no ID.")
  else
    (if negb (is_None id) then write self (fun o => setattr o "id" id)
     else ret tt) ;;;
    (match attributes with
     | [] => ret tt
     | _ => on_object self (populate attributes)
     end) ;;;
    transport PUT_MODEL self.

(** [save]: [self.update()] is the [update] that the class of the entity
    resolves to, called with no argument. *)
Definition save (self : loc) : M (world T) bool :=
  self_id <~ read self (fun o => attr o "id") ;;
  if is_None self_id then transport POST_MODEL self
  else
    c <~ read self (fun o => Ok (__class__ o)) ;;
    match update_of c with
    | Some Of_Model => update self VNone []
    | Some (Rejected msg) => raise (NotImplementedError msg)
    | Some Uploads => AttachedFile.upload self
    | None => raise (AttributeError "update")
    end.
End Methods.

End Model.

(** ** model.py: [DomainModel] *)

Module DomainModel.

(** [uri]: nested under the owner kind and id held by the entity itself. *)
Definition uri (self : object) : res string :=
  match Model.is_new self, attr self "domainClassName", attr self "domainIdent" with
  | Ok true, Ok c, Ok i =>
      Ok ("domain/" ++ str c ++ "/" ++ str i ++ "/"
          ++ Model.callback_identifier self ++ ".json")
  | Ok false, Ok c, Ok i =>
      match attr self "id" with
      | Ok id =>
          Ok ("domain/" ++ str c ++ "/" ++ str i ++ "/"
              ++ Model.callback_identifier self ++ "/" ++ str id ++ ".json")
      | Raise e => Raise e
      end
  | Raise e, _, _ => Raise e
  | _, Raise e, _ => Raise e
  | _, _, Raise e => Raise e
  end.

Section Methods.
Context {T : Transport}.

(** The setter of the property [obj]. *)
Definition set_obj (self value : loc) : M (world T) unit :=
  write self (fun o =>
    Object (__class__ o) (__dict__ o) (_query_parameters o) (Some value)) ;;;
  c <~ read value (fun o => attr o "class_") ;;
  write self (fun o => setattr o "domainClassName" c) ;;;
  i <~ read value (fun o => attr o "id") ;;
  write self (fun o => setattr o "domainIdent" i).

(** [__init__] *)
Definition __init__ (self object : loc) : M (world T) unit :=
  Model.__init__ self ;;;
  is_new <~ read object Model.is_new ;;
  if is_new : bool then
    raise (ValueError "The object must be fetched or saved before.")
  else
    write self (fun o => setattr o "domainClassName" VNone) ;;;
    write self (fun o => setattr o "domainIdent" VNone) ;;;
    set_obj self object.
End Methods.

End DomainModel.

(** ** property.py: [Description], whose [uri] reads the owner itself and
    whose [fetch] requires no identifier *)

Module Description.
Section Methods.
Context {T : Transport}.

(** [uri]: [self._object.class_] and [self._object.id] are read from the
    owner when the URI is computed. *)
Definition uri (self : loc) : M (world T) string :=
  owner <~ read self (fun o =>
    match _object o with
    | Some r => Ok r
    | None =>
        match __dict__ o !! "_object" with
        | Some _ => Raise (AttributeError "class_")
        | None => Raise (AttributeError "_object")
        end
    end) ;;
  c <~ read owner (fun o => attr o "class_") ;;
  i <~ read owner (fun o => attr o "id") ;;
  k <~ read self (fun o => Ok (Model.callback_identifier o)) ;;
  ret ("domain/" ++ str c ++ "/" ++ str i ++ "/" ++ k ++ ".json").

(** [fetch]: no identifier is required. *)
Definition fetch (self : loc) (id : value) : M (world T) bool :=
  (if negb (is_None id) then write self (fun o => setattr o "id" id)
   else ret tt) ;;;
  transport GET_MODEL self.
End Methods.
End Description.

(** ** property.py: [Property] *)

Module Property.

(** The test of [uri]:
    [self._by_key and self.domainClassName and self.domainIdent and self.key]. *)
Definition by_key (self : object) : res bool :=
  and_then (attr self "_by_key") (fun b =>
  if negb (truthy b) then Ok false else
  and_then (attr self "domainClassName") (fun c =>
  if negb (truthy c) then Ok false else
  and_then (attr self "domainIdent") (fun i =>
  if negb (truthy i) then Ok false else
  and_then (attr self "key") (fun k => Ok (truthy k))))).

(** [uri] *)
Definition uri (self : object) : res string :=
  and_then (by_key self) (fun by_key =>
  and_then
    (if by_key : bool then
       and_then (attr self "domainClassName") (fun c =>
       and_then (attr self "domainIdent") (fun i =>
       and_then (attr self "key") (fun k =>
       Ok ("domain/" ++ str c ++ "/" ++ str i ++ "/key/" ++ str k ++ "/property.json"))))
     else DomainModel.uri self) (fun uri =>
  and_then (attr self "domainClassName") (fun c =>
  Ok (if py_eq c (VStr "annotation") then replace "domain/" "" uri else uri)))).

Section Methods.
Context {T : Transport}.

(** [__init__] *)
Definition __init__ (self object : loc) (key value : py_value)
    (attributes : pydict) : M (world T) unit :=
  DomainModel.__init__ self object ;;;
  write self (fun o => setattr o "key" key) ;;;
  write self (fun o => setattr o "value" value) ;;;
  on_object self (Model.populate attributes) ;;;
  write self (fun o => setattr o "_by_key" (VBool false)).

(** [fetch]: the attribute [key] is read only when neither the entity nor
    the call gives an identifier. *)
Definition fetch (self : loc) (id key : py_value) : M (world T) bool :=
  self_id <~ read self (fun o => attr o "id") ;;
  missing <~ (if is_None self_id && is_None id then
                self_key <~ read self (fun o => attr o "key") ;;
                ret (is_None self_key && is_None key)
              else ret false) ;;
  if missing : bool then
    raise (ValueError "Cannot fetch a model with no ID and no key.")
  else
    (if negb (is_None id) then write self (fun o => setattr o "id" id)
     else ret tt) ;;;
    (if negb (is_None key) then
       write self (fun o => setattr o "key" key) ;;;
       write self (fun o => setattr o "_by_key" (VBool true))
     else ret tt) ;;;
    model <~ transport GET_MODEL self ;;
    write self (fun o => setattr o "_by_key" (VBool false)) ;;;
    ret model.
End Methods.

End Property.

(** ** user.py: [User], [CurrentUser], [UserGroup], [UserRole] *)

Module User.
Section Methods.
Context {T : Transport}.

(** [__init__] *)
Definition __init__ (self : loc)
    (username firstname lastname email password language is_developer : value)
    (attributes : pydict) : M (world T) unit :=
  Model.__init__ self ;;;
  write self (fun o => setattr o "username" username) ;;;
  write self (fun o => setattr o "firstname" firstname) ;;;
  write self (fun o => setattr o "lastname" lastname) ;;;
  write self (fun o => setattr o "email" email) ;;;
  write self (fun o => setattr o "password" password) ;;;
  write self (fun o => setattr o "language" language) ;;;
  write self (fun o => setattr o "isDeveloper" is_developer) ;;;
  write self (fun o => setattr o "user" VNone) ;;;
  write self (fun o => setattr o "admin" VNone) ;;;
  write self (fun o => setattr o "guest" VNone) ;;;
  on_object self (Model.populate attributes).
End Methods.
End User.

Module CurrentUser.
Section Methods.
Context {T : Transport}.

(** [__init__] *)
Definition __init__ (self : loc) : M (world T) unit :=
  User.__init__ self VNone VNone VNone VNone VNone VNone VNone [] ;;;
  write self (fun o => setattr o "id" (VInt 0)) ;;;
  write self (fun o => setattr o "publicKey" VNone) ;;;
  write self (fun o => setattr o "privateKey" VNone).
End Methods.
End CurrentUser.

Module UserGroup.
Section Methods.
Context {T : Transport}.

(** [__init__] *)
Definition __init__ (self : loc) (id_user id_group : value)
    (attributes : pydict) : M (world T) unit :=
  Model.__init__ self ;;;
  write self (fun o => setattr o "user" id_user) ;;;
  write self (fun o => setattr o "group" id_group) ;;;
  on_object self (Model.populate attributes).

(** [fetch] *)
Definition fetch (self : loc) (id_user id_group : value) : M (world T) bool :=
  write self (fun o => setattr o "id" (VInt (-1))) ;;;
  user <~ read self (fun o => attr o "user") ;;
  if is_None user && is_None id_user then
    raise (ValueError "Cannot fetch a model with no user ID.")
  else
    group <~ read self (fun o => attr o "group") ;;
    if is_None group && is_None id_group then
      raise (ValueError "Cannot fetch a model with no group ID.")
    else
      (if negb (is_None id_user) then write self (fun o => setattr o "user" id_user)
       else ret tt) ;;;
      (if negb (is_None id_group) then write self (fun o => setattr o "group" id_group)
       else ret tt) ;;;
      transport GET_MODEL self.

(** [update] *)
Definition update (self : loc) : M (world T) bool :=
  raise (NotImplementedError "Cannot update a user-group.").

(** [save], which [UserGroup] takes from [Model]: [self.update()] is the
    [update] of [UserGroup]. *)
Definition save (self : loc) : M (world T) bool :=
  self_id <~ read self (fun o => attr o "id") ;;
  if is_None self_id then transport POST_MODEL self
  else update self.
End Methods.

(** [uri] *)
Definition uri (self : object) : res string :=
  and_then (Model.is_new self) (fun is_new =>
  and_then (attr self "user") (fun user =>
  if is_new : bool then Ok ("user/" ++ str user ++ "/group.json")
  else
    and_then (attr self "group") (fun group =>
    Ok ("user/" ++ str user ++ "/group/" ++ str group ++ ".json")))).
End UserGroup.

Module UserRole.
Section Methods.
Context {T : Transport}.

(** [__init__] *)
Definition __init__ (self : loc) (id_user id_role : value)
    (attributes : pydict) : M (world T) unit :=
  Model.__init__ self ;;;
  write self (fun o => setattr o "user" id_user) ;;;
  write self (fun o => setattr o "role" id_role) ;;;
  write self (fun o => setattr o "authority" VNone) ;;;
  on_object self (Model.populate attributes).

(** [fetch] *)
Definition fetch (self : loc) (id_user id_role : value) : M (world T) bool :=
  write self (fun o => setattr o "id" (VInt (-1))) ;;;
  user <~ read self (fun o => attr o "user") ;;
  if is_None user && is_None id_user then
    raise (ValueError "Cannot fetch a model with no user ID.")
  else
    role <~ read self (fun o => attr o "role") ;;
    if is_None role && is_None id_role then
      raise (ValueError "Cannot fetch a model with no role ID.")
    else
      (if negb (is_None id_user) then write self (fun o => setattr o "user" id_user)
       else ret tt) ;;;
      (if negb (is_None id_role) then write self (fun o => setattr o "role" id_role)
       else ret tt) ;;;
      transport GET_MODEL self.
End Methods.
End UserRole.

(** ** ontology.py: [RelationTerm] *)

Module RelationTerm.
Section Methods.
Context {T : Transport}.

(** [__init__] *)
Definition __init__ (self : loc) (id_term1 id_term2 : value)
    (attributes : pydict) : M (world T) unit :=
  Model.__init__ self ;;;
  write self (fun o => setattr o "term1" id_term1) ;;;
  write self (fun o => setattr o "term2" id_term2) ;;;
  on_object self (Model.populate attributes).

(** [fetch] *)
Definition fetch (self : loc) (id_term1 id_term2 : value) : M (world T) bool :=
  write self (fun o => setattr o "id" (VInt (-1))) ;;;
  term1 <~ read self (fun o => attr o "term1") ;;
  if is_None term1 && is_None id_term1 then
    raise (ValueError "Cannot fetch a model with no term 1 ID.")
  else
    term2 <~ read self (fun o => attr o "term2") ;;
    if is_None term2 && is_None id_term2 then
      raise (ValueError "Cannot fetch a model with no term 2 ID.")
    else
      (if negb (is_None id_term1) then write self (fun o => setattr o "term1" id_term1)
       else ret tt) ;;;
      (if negb (is_None id_term2) then write self (fun o => setattr o "term2" id_term2)
       else ret tt) ;;;
      transport GET_MODEL self.
End Methods.
End RelationTerm.

(** ** [entity.save()] *)

Module Entity.
Section Methods.
Context {T : Transport}.

(** The call [self.save()]: the [save] that the class of the entity
    resolves to. *)
Definition save (self : loc) : M (world T) bool :=
  c <~ read self (fun o => Ok (__class__ o)) ;;
  match save_of c with
  | Some Of_Model => Model.save self
  | Some (Rejected msg) => raise (NotImplementedError msg)
  | Some Uploads => AttachedFile.upload self
  | None => raise (AttributeError "save")
  end.
End Methods.
End Entity.

(** The constructor of class [c] called with the default arguments: the
    base constructor, then the attributes the class declares. *)
Definition assign_fields (c : class) (o : object) : object :=
  fold_left (fun o kv => setattr o kv.1 kv.2) (fields c) o.

(** [c()]: the constructor of a class derived from [DomainModel], which
    each such class of the sources defines, takes the owner as a
    positional argument that has no default. *)
Definition construct {T : Transport} (c : class) (self : loc) : M (world T) unit :=
  if derives_from "DomainModel" c then
    raise (TypeError (__name__ c
                      ++ ".__init__() missing 1 required positional argument: 'object'"))
  else
    Model.__init__ self ;;;
    write self (assign_fields c).

(** The same for a class derived from [DomainModel], called with the owner. *)
Definition construct_domain {T : Transport} (c : class) (object self : loc)
    : M (world T) unit :=
  DomainModel.__init__ self object ;;;
  write self (assign_fields c).

(** ** collection.py: [Collection] *)

(** [sep.join(l)] *)
Fixpoint join (sep : string) (l : list string) : string :=
  match l with
  | [] => ""
  | [s] => s
  | s :: t => s ++ sep ++ join sep t
  end.

(** [l[start:end]] for indices that are not negative. *)
Definition slice {A} (l : list A) (start end_ : nat) : list A :=
  take (end_ - start) (drop start l).

(** A value offered to a collection: a reference to an object, or a value
    that is not an entity. *)
Inductive pyval :=
  | PRef (l : loc)
  | PPrim (v : value).

(** [isinstance(value, model)] for a value held by reference. *)
Definition isinstance_of (h : gmap loc object) (value : pyval) (model : class) : bool :=
  match value with
  | PRef l =>
      match h !! l with
      | Some o => isinstance o model
      | None => false
      end
  | PPrim _ => false
  end.

(** [value.__class__.__name__] *)
Definition class_name_of (h : gmap loc object) (value : pyval) : string :=
  match value with
  | PRef l =>
      match h !! l with
      | Some o => __name__ (__class__ o)
      | None => "object"
      end
  | PPrim VNone => "NoneType"
  | PPrim (VBool _) => "bool"
  | PPrim (VInt _) => "int"
  | PPrim (VStr _) => "str"
  end.

(** The page envelope [{"size": ..., "collection": [...]}]. *)
Record envelope := Envelope {
  env_size : Z;
  env_collection : list pydict
}.

(** [for x in l: ...] collecting the results. *)
Fixpoint map_M {S A B} (f : A -> M S B) (l : list A) : M S (list B) :=
  match l with
  | [] => ret []
  | a :: t =>
      b <~ f a ;;
      bs <~ map_M f t ;;
      ret (b :: bs)
  end.

(** A computation on the store, run from a method of a collection. *)
Definition on_store {T : Transport} {C A} (c : M (world T) A) : M (C * world T) A :=
  fun s =>
    let '(r, w) := c s.2 in (r, (s.1, w)).

(** A read and an in-place update of the collection itself. *)
Definition this {C W} : M (C * W) C := fun s => (Ok s.1, s).
Definition update_this {C W} (f : C -> C) : M (C * W) unit :=
  fun s => (Ok tt, (f s.1, s.2)).

Module Collection.

(** A collection: the name of its concrete class ([type(self)]), the
    [callback_identifier] that class overrides, if it does, and the
    attributes that [__init__] sets. *)
Record t := Make {
  type_name : string;
  callback_override : option string;
  _model : class;
  _data : list loc;
  _allowed_filters : list (option string);
  _filters : pydict;
  _total : Z;
  _total_pages : option Z;
  max : option Z;
  offset : Z
}.

Definition set_data (d : list loc) (c : t) : t :=
  Make (type_name c) (callback_override c) (_model c) d (_allowed_filters c)
       (_filters c) (_total c) (_total_pages c) (max c) (offset c).

Definition set_total (n : Z) (c : t) : t :=
  Make (type_name c) (callback_override c) (_model c) (_data c)
       (_allowed_filters c) (_filters c) n (_total_pages c) (max c) (offset c).

Definition set_total_pages (p : option Z) (c : t) : t :=
  Make (type_name c) (callback_override c) (_model c) (_data c)
       (_allowed_filters c) (_filters c) (_total c) p (max c) (offset c).

(** [__init__] of the base class: [type_name] is the name of the class
    that is instantiated. *)
Definition __init__ (type_name : string) (callback : option string)
    (model : class) (filters : option pydict) (max : option Z) (offset : Z) : t :=
  Make type_name callback model [] []
       (match filters with Some f => f | None => [] end)
       0 None max offset.

(** [callback_identifier] *)
Definition callback_identifier (self : t) : string :=
  match callback_override self with
  | Some s => s
  | None => lower (__name__ (_model self))
  end.

(** [uri] *)
Definition uri (self : t) (without_filters : bool) : res string :=
  if negb without_filters then
    if bool_decide (1 < length (_filters self))%nat then
      Raise (ValueError "More than 1 filter not allowed by default.")
    else
      let uri :=
        join "/" (map (fun kv => kv.1 ++ "/" ++ str kv.2)
                      (filter (fun kv => Some kv.1 ∈ _allowed_filters self)
                              (_filters self))) in
      let uri := if bool_decide (0 < String.length uri)%nat then uri ++ "/" else uri in
      Ok (uri ++ callback_identifier self ++ ".json")
  else Ok ("" ++ callback_identifier self ++ ".json").

(** The guard of the loop of [fetch(max)]:
    [not self._total_pages or n_pages < self._total_pages]. *)
Definition fetch_continues (self : t) (n_pages : Z) : bool :=
  match _total_pages self with
  | None => true
  | Some p => (p =? 0)%Z || (n_pages <? p)%Z
  end.

Section Populate.
Context {T : Transport}.

(** [self._model().populate(instance)] *)
Definition element (model : class) (instance : pydict) : M (world T) loc :=
  l <~ new model (construct model) ;;
  on_object l (Model.populate instance) ;;;
  ret l.

(** [populate] *)
Definition populate (attributes : envelope) (append_mode : bool)
    : M (t * world T) unit :=
  self <~ this ;;
  data <~ on_store (map_M (element (_model self)) (env_collection attributes)) ;;
  (if append_mode then update_this (fun c => set_data (_data c ++ data) c)
   else update_this (set_data data)) ;;;
  update_this (set_total (env_size attributes)) ;;;
  self <~ this ;;
  match max self with
  | None => update_this (set_total_pages (Some 1%Z))
  | Some m =>
      if (m =? 0)%Z then update_this (set_total_pages (Some 1%Z))
      else update_this (set_total_pages (Some (_total self `div` m)%Z))
  end.
End Populate.

(** *** The sequence operations *)

(** The object a value refers to when [isinstance(value, model)] holds. *)
Definition as_instance (h : gmap loc object) (value : pyval) (model : class)
    : option loc :=
  match value with
  | PRef l => if isinstance_of h value model then Some l else None
  | PPrim _ => None
  end.

Definition not_allowed (h : gmap loc object) (value : pyval) (self : t) : exn :=
  TypeError ("Value of type " ++ class_name_of h value ++ " not allowed in "
             ++ type_name self ++ ".").

(** [__setitem__] with an integer index: a list takes the indices from
    [-len] to [len - 1]. *)
Definition __setitem__ (h : gmap loc object) (index : Z) (value : pyval) : M t unit :=
  self <~ get ;;
  match as_instance h value (_model self) with
  | None => raise (not_allowed h value self)
  | Some l =>
      let n := Z.of_nat (length (_data self)) in
      if bool_decide (- n <= index < n)%Z then
        fun s => (Ok tt, set_data (<[Z.to_nat (index `mod` n) := l]> (_data s)) s)
      else raise IndexError
  end.

(** [insert]: [list.insert] clamps the index to the bounds of the list. *)
Definition insert (h : gmap loc object) (index : Z) (value : pyval) : M t unit :=
  self <~ get ;;
  match as_instance h value (_model self) with
  | None => raise (not_allowed h value self)
  | Some l =>
      let n := Z.of_nat (length (_data self)) in
      let i := Z.to_nat (if (index <? 0)%Z then Z.max 0 (index + n) else Z.min index n) in
      fun s => (Ok tt, set_data (take i (_data s) ++ l :: drop i (_data s)) s)
  end.

(** [__iadd__] *)
Definition __iadd__ (other : t) : M t unit :=
  self <~ get ;;
  if negb (String.eqb (type_name self) (type_name other)) then
    raise (TypeError "Only two same Collection objects can be added together.")
  else
    fun s => (Ok tt, set_data (_data s ++ _data other) s).

(** [__add__]: the result is a copy of [self] that is emptied, then
    extended by [self] and by [other]; [self] is the state, which
    [__add__] does not write. *)
Definition __add__ (other : t) : M t t :=
  self <~ get ;;
  if negb (String.eqb (type_name self) (type_name other)) then
    raise (TypeError "Only two same Collection objects can be added together.")
  else
    let collection := set_data [] self in
    match (__iadd__ self ;;; __iadd__ other) collection with
    | (Ok _, collection) => ret collection
    | (Raise e, _) => raise e
    end.

(** *** Saving *)

(** Modelled from the spec: [generic_chunk_parallel] of
    [_utilities/parallel.py], which is not among the sources. The sequence
    is cut into contiguous chunks of [chunk_size] elements, the last one
    possibly shorter; the worker runs on each chunk; the result lists, in
    the order of the chunks, the index range of each chunk with the
    success flag of the worker. The workers run concurrently, [n_workers]
    at a time, and the results are put back in the order of the chunks,
    so the number of workers does not show in the result. The worker is
    given the index of the chunk it runs on: its answer comes from the
    transport and is not a function of the chunk alone. *)
Definition generic_chunk_parallel {A} (data : list A)
    (worker_fn : nat -> list A -> bool) (chunk_size n_workers : nat)
    : list ((nat * nat) * bool) :=
  let n := length data in
  let n_chunks := (n `div` chunk_size + (if (n `mod` chunk_size =? 0) then 0 else 1))%nat in
  map (fun i =>
         let start := (i * chunk_size)%nat in
         let end_ := Nat.min (start + chunk_size) n in
         ((start, end_), worker_fn i (slice data start end_)))
      (seq 0 n_chunks).

(** The loop of [save] over the results: the elements of a chunk go to
    [added] when the chunk succeeded and to [failed] otherwise. *)
Definition partition_results (data : list loc) (results : list ((nat * nat) * bool))
    : list loc * list loc :=
  fold_left (fun '(added, failed) '((start, end_), success) =>
               if success : bool then ((added ++ slice data start end_)%list, failed)
               else (added, (failed ++ slice data start end_)%list))
            results ([], []).

Section Save.
(** The answer of [Cytomine.get_instance().post_collection(self)], and the
    outcome of the method [_upload_fn] that the pool runs on the chunk of a
    given index: the answer of the transport to the bulk create of the
    chunk. [save] is modelled for any such answers. *)
Variable post_collection : list loc -> bool.
Variable _upload_fn : nat -> list loc -> bool.

(** [save] *)
Definition save (self : t) (chunk : value) (n_workers : nat) : res bool :=
  let chunked (chunk_size : nat) :=
    let results := generic_chunk_parallel (_data self) _upload_fn chunk_size n_workers in
    let '(added, failed) := partition_results (_data self) results in
    if negb (length added =? length (_data self))%nat then
      Raise (CollectionPartialUploadException "Some items could not be uploaded"
               added failed)
    else Ok true in
  match chunk with
  | VNone => Ok (post_collection (_data self))
  | VInt z => chunked (Z.to_nat z)
  | VBool b => chunked (if b then 1 else 0)%nat
  | VStr _ =>
      Raise (ValueError ("Invalid value '" ++ str chunk ++ "' for chunk parameter."))
  end.
End Save.

(** *** Reading and deleting *)

(** [__len__] *)
Definition __len__ (self : t) : nat := length (_data self).

(** [__getitem__] with an integer index. *)
Definition __getitem__ (index : Z) : M t loc :=
  self <~ get ;;
  let n := Z.of_nat (length (_data self)) in
  if bool_decide (- n <= index < n)%Z then
    match _data self !! Z.to_nat (index `mod` n) with
    | Some l => ret l
    | None => raise IndexError
    end
  else raise IndexError.

(** [__delitem__] with an integer index. *)
Definition __delitem__ (index : Z) : M t unit :=
  self <~ get ;;
  let n := Z.of_nat (length (_data self)) in
  if bool_decide (- n <= index < n)%Z then
    fun s => (Ok tt, set_data (delete (Z.to_nat (index `mod` n)) (_data s)) s)
  else raise IndexError.

(** [append] and [extend], which [Collection] takes from the mixin
    [MutableSequence] of the standard library: [append] inserts at the
    end, [extend] appends the values one after the other. *)
Definition append (h : gmap loc object) (value : pyval) : M t unit :=
  self <~ get ;;
  insert h (Z.of_nat (__len__ self)) value.

Fixpoint extend (h : gmap loc object) (values : list pyval) : M t unit :=
  match values with
  | [] => ret tt
  | v :: vs => append h v ;;; extend h vs
  end.

(** *** Filters *)

Definition set_filters (f : pydict) (c : t) : t :=
  Make (type_name c) (callback_override c) (_model c) (_data c)
       (_allowed_filters c) f (_total c) (_total_pages c) (max c) (offset c).

(** [is_filtered_by] *)
Definition is_filtered_by (self : t) (key : string) : bool :=
  dict_has key (_filters self).

(** [add_filter] *)
Definition add_filter (key : string) (value : py_value) : M t unit :=
  fun s => (Ok tt, set_filters (dict_set key value (_filters s)) s).

(** *** Fetching *)

Definition set_max (m : option Z) (c : t) : t :=
  Make (type_name c) (callback_override c) (_model c) (_data c)
       (_allowed_filters c) (_filters c) (_total c) (_total_pages c) m (offset c).

Definition set_offset (o : Z) (c : t) : t :=
  Make (type_name c) (callback_override c) (_model c) (_data c)
       (_allowed_filters c) (_filters c) (_total c) (_total_pages c) (max c) o.

(** The transport for collections ([get_collection] of
    [cytomine/cytomine.py], which is not among the sources), with the
    state of the remote server: it is given the collection, from which it
    takes the URI and the parameters, and the append mode; it leaves the
    collection in some state (it populates it) and returns it ([true]) or
    [False]. The methods are modelled for any such transport. *)
Record session := Session {
  remote_state : Type;
  get_collection : remote_state -> t -> bool -> remote_state * (t * bool)
}.

(** The state of the fetching methods: the collection, the remote server
    and the calls of [get_collection] made so far, each with the
    collection as it was given and the append mode. *)
Record fetching (S : session) := Fetching {
  this_collection : t;
  remote_now : remote_state S;
  requests : list (t * bool)
}.
Arguments Fetching {S} this_collection remote_now requests.
Arguments this_collection {S} f.
Arguments remote_now {S} f.
Arguments requests {S} f.

Section Fetch.
Context {S : session}.

Definition assign (f : t -> t) : M (fetching S) unit :=
  fun s => (Ok tt, Fetching (f (this_collection s)) (remote_now s) (requests s)).

(** [_fetch] *)
Definition _fetch (append_mode : bool) : M (fetching S) bool :=
  fun s =>
    let self := this_collection s in
    if (length (_filters self) =? 0)%nat
       && negb (bool_decide (None ∈ _allowed_filters self)) then
      (Raise (ValueError "This collection cannot be fetched without a filter."), s)
    else
      let '(r, (c, ok)) := get_collection S (remote_now s) self append_mode in
      (Ok ok, Fetching c r (requests s ++ [(self, append_mode)])).

(** [fetch_next_page]: [self.offset + self.max] is a type error when
    [max] is [None]. *)
Definition fetch_next_page (append_mode : bool) : M (fetching S) bool :=
  fun s =>
    let self := this_collection s in
    match max self with
    | None =>
        (Raise (TypeError "unsupported operand type(s) for +: 'int' and 'NoneType'"), s)
    | Some m =>
        (assign (set_offset (Z.min (_total self) (offset self + m))) ;;;
         _fetch append_mode) s
    end.

(** [fetch_previous_page] *)
Definition fetch_previous_page : M (fetching S) bool :=
  fun s =>
    let self := this_collection s in
    match max self with
    | None =>
        (Raise (TypeError "unsupported operand type(s) for -: 'int' and 'NoneType'"), s)
    | Some m =>
        (assign (set_offset (Z.max 0 (offset self - m))) ;;;
         _fetch false) s
    end.

(** The loop of [fetch]: it makes at most [fuel] turns, and returns
    whether the guard became false. *)
Fixpoint fetch_pages (fuel : nat) (n_pages : Z) : M (fetching S) bool :=
  fun s =>
    if fetch_continues (this_collection s) n_pages then
      match fuel with
      | O => (Ok false, s)
      | Datatypes.S fuel =>
          (fetch_next_page true ;;; fetch_pages fuel (n_pages + 1)%Z) s
      end
    else (Ok true, s).

(** [fetch]: with a page size that is neither [None] nor zero, the result
    is [Some true] (the collection) when the loop ends and [None] when the
    fuel runs out before it does. *)
Definition fetch (fuel : nat) (max : option Z) : M (fetching S) (option bool) :=
  match max with
  | Some m =>
      if (m =? 0)%Z then ok <~ _fetch false ;; ret (Some ok)
      else
        assign (set_max (Some m)) ;;;
        done <~ fetch_pages fuel 0 ;;
        ret (if done : bool then Some true else None)
  | None => ok <~ _fetch false ;; ret (Some ok)
  end.

(** [fetch_with_filter] *)
Definition fetch_with_filter (fuel : nat) (key : string) (value : py_value)
    (max : option Z) : M (fetching S) (option bool) :=
  assign (fun c => set_filters (dict_set key value (_filters c)) c) ;;;
  fetch fuel max.
End Fetch.

End Collection.

(** ** collection.py: [DomainCollection] *)

Module DomainCollection.

Record t := Make {
  base : Collection.t;
  _domainClassName : value;
  _domainIdent : value;
  _object : option loc
}.

Definition set_base (f : Collection.t -> Collection.t) (c : t) : t :=
  Make (f (base c)) (_domainClassName c) (_domainIdent c) (_object c).

(** [uri] *)
Definition uri (self : t) (without_filters : bool) : res string :=
  match Collection.uri (base self) without_filters with
  | Ok u =>
      Ok ("domain/" ++ str (_domainClassName self) ++ "/"
          ++ str (_domainIdent self) ++ "/" ++ u)
  | Raise e => Raise e
  end.

Section Methods.
Context {T : Transport}.

(** [__init__], with the setter of [_obj] at its end. *)
Definition __init__ (type_name : string) (callback : option string)
    (model : class) (object : loc) (filters : option pydict)
    (max : option Z) (offset : Z) : M (world T) t :=
  let self := Collection.__init__ type_name callback model filters max offset in
  is_new <~ read object Model.is_new ;;
  if is_new : bool then
    raise (ValueError "The object must be fetched or saved before.")
  else
    let self := Make self VNone VNone None in
    c <~ read object (fun o => attr o "class_") ;;
    i <~ read object (fun o => attr o "id") ;;
    ret (Make (base self) c i (Some object)).

(** [self._model(self._object).populate(instance)] *)
Definition element (model : class) (object : loc) (instance : pydict)
    : M (world T) loc :=
  l <~ new model (construct_domain model object) ;;
  on_object l (Model.populate instance) ;;;
  ret l.

(** [populate] *)
Definition populate (attributes : envelope) (append_mode : bool)
    : M (t * world T) unit :=
  self <~ this ;;
  owner <~ match _object self with
           | Some r => ret r
           | None => raise (AttributeError "_object")
           end ;;
  data <~ on_store (map_M (element (Collection._model (base self)) owner)
                          (env_collection attributes)) ;;
  if append_mode then
    update_this (set_base (fun c => Collection.set_data (Collection._data c ++ data) c))
  else update_this (set_base (Collection.set_data data)).
End Methods.

End DomainCollection.

(** ** Notions used to state the properties *)

(** The entity that a composite-key [fetch] hands to the transport: its
    identifier is [-1], and each of the two keys is the one given in the
    call, when one is given. *)
Definition composite_key (first : string) (id_first : value)
    (second : string) (id_second : value) (o : object) : object :=
  let o := setattr o "id" (VInt (-1)) in
  let o := if is_None id_first then o else setattr o first id_first in
  if is_None id_second then o else setattr o second id_second.

(** The attribute under which [populate] stores the item of key [key], if
    it stores it: what the loop body does to the key. *)
Definition stored_name (key : string) : option string :=
  let key := if startswith key "id_" then str_from 3 key else key in
  let key := if String.eqb key "uri" then "uri_" else key in
  if negb (startswith key "_") then
    Some (if String.eqb key "class" then key ++ "_" else key)
  else None.

(** What the loop body of [populate] writes for an item that is stored as
    a data attribute, and what the loop writes for a mapping all of whose
    items are. *)
Definition store_item (self : object) (item : string * value) : object :=
  match stored_name item.1 with
  | Some field => setattr self field item.2
  | None => self
  end.

Definition stored (self : object) (attributes : pydict) : object :=
  fold_left store_item attributes self.

(** The name is a property of the class: [populate] cannot store an item
    under it. *)
Definition is_property (c : class) (name : string) : bool :=
  read_only_property c name || settable_property c name.

(** No item of the mapping is stored under a property of the class. *)
Definition storable (c : class) (attributes : pydict) : bool :=
  forallb (fun item : string * value =>
             match stored_name item.1 with
             | Some field => negb (is_property c field)
             | None => true
             end) attributes.

(** The elements of a page can be built: the constructor of the kind takes
    no owner, and the items of each element can be stored. *)
Definition buildable (c : class) (items : list pydict) : bool :=
  forallb (fun instance => negb (derives_from "DomainModel" c) && storable c instance)
          items.

(** The key under which [to_json] emits the attribute [field]. *)
Definition emitted_name (field : string) : string :=
  if String.eqb field "uri_" then "uri" else field.


(** The entity once the identifier given to [fetch], [delete] or [update],
    if one is given, is assigned. *)
Definition with_id (id : value) (o : object) : object :=
  if is_None id then o else setattr o "id" id.



(** The object that [Model.__init__] leaves. *)
Definition initialized (o : object) : object :=
  setattr (setattr (setattr (setattr (setattr
    (Object (__class__ o) (__dict__ o) [] (_object o))
    "id" VNone) "created" VNone) "updated" VNone) "deleted" VNone) "name" VNone.

(** The object that a constructor call starts from. *)
Definition blank (c : class) : object := Object c ∅ [] None.

(** The attribute [k] of the object at [l] in the world [w]. *)
Definition attr_at {T : Transport} (w : world T) (l : loc) (k : string)
    : option (res value) :=
  (fun o => attr o k) <$> heap w !! l.


(** The object that [DomainModel.__init__] leaves when the owner, at
    [owner], is persisted with the class discriminator [k] and the
    identifier [i]. *)
Definition domain_initialized (owner : loc) (k i : value) (o : object) : object :=
  let o := setattr (setattr (initialized o) "domainClassName" VNone) "domainIdent" VNone in
  setattr (setattr
    (Object (__class__ o) (__dict__ o) (_query_parameters o) (Some owner))
    "domainClassName" k) "domainIdent" i.

(** A transport with no server behind it: every call fails and leaves the
    entity as it is. *)
Definition offline : Transport :=
  {| server := unit; exchange := fun s _ o => (s, Reply o false) |}.

(** The store with no object, before any transport call. *)
Definition empty_world : world offline := @World offline ∅ tt [].

(** The collection passes the test of [_fetch]: it has a filter, or its
    kind accepts a listing with no filter. *)
Definition fetchable (c : Collection.t) : Prop :=
  Collection._filters c ≠ [] \/ None ∈ Collection._allowed_filters c.

(** The collection that a call of the transport leaves. *)
Definition fetched (S : Collection.session) (r : Collection.remote_state S)
    (c : Collection.t) (append_mode : bool) : Collection.t :=
  (Collection.get_collection S r c append_mode).2.1.

(** A transport that leaves the page size, the offset, the filters and the
    allowed filters of the collection as they are. *)
Definition keeps_settings (S : Collection.session) : Prop :=
  forall r c a,
    Collection.max (fetched S r c a) = Collection.max c
    /\ Collection.offset (fetched S r c a) = Collection.offset c
    /\ Collection._filters (fetched S r c a) = Collection._filters c
    /\ Collection._allowed_filters (fetched S r c a) = Collection._allowed_filters c.

(** A transport after every call of which a collection of page size [m]
    holds [pages] as its number of pages. *)
Definition reports_pages (S : Collection.session) (m : Z) (pages : option Z) : Prop :=
  forall r c a,
    Collection.max c = Some m -> Collection._total_pages (fetched S r c a) = pages.

(** What the loop of [fetch] relies on from one turn to the next. *)
Definition paging {S : Collection.session} (s : Collection.fetching S) (m : Z)
    (pages : option Z) : Prop :=
  Collection.max (Collection.this_collection s) = Some m
  /\ fetchable (Collection.this_collection s)
  /\ Collection._total_pages (Collection.this_collection s) = pages.

(** A transport that populates the collection with a page of [total]
    elements in all and no element, as [Collection.populate] does for the
    total and the number of pages. *)
Definition empty_pages (total : Z) : Collection.session :=
  Collection.Session unit
    (fun r c _ =>
       (r, (Collection.set_total_pages
              (Some (match Collection.max c with
                     | None => 1
                     | Some m => if m =? 0 then 1 else total `div` m
                     end)%Z)
              (Collection.set_total total c), true))).

(** The value of the last item of the mapping that [populate] stores
    under [field], if there is one. *)
Fixpoint stored_last (field : string) (attributes : pydict) : option value :=
  match attributes with
  | [] => None
  | (key, v) :: rest =>
      match stored_last field rest with
      | Some w => Some w
      | None => if decide (stored_name key = Some field) then Some v else None
      end
  end.

(** ** Properties of [Model.populate] and [Model.to_json] *)

Lemma stored_name_public (key field : string) :
  stored_name key = Some field -> startswith field "_" = false /\ field ≠ "uri".
Proof.
  unfold stored_name.
  set (k1 := if startswith key "id_" then str_from 3 key else key).
  destruct (String.eqb_spec k1 "uri") as [->|Hne].
  - simpl. intros [= <-]. split; [reflexivity|discriminate].
  - destruct (startswith k1 "_") eqn:Hp; simpl; [discriminate|].
    destruct (String.eqb_spec k1 "class") as [->|Hnc]; intros [= <-].
    + split; [reflexivity|discriminate].
    + split; [exact Hp|exact Hne].
Qed.

Lemma for_each_cons {S A} (f : A -> M S unit) (a : A) (t : list A) (s : S) :
  for_each f (a :: t) s
  = match f a s with
    | (Ok _, s1) => for_each f t s1
    | (Raise e, s1) => (Raise e, s1)
    end.
Proof. reflexivity. Qed.

Lemma populate_for_each (attributes : pydict) :
  Model.populate attributes = for_each Model.populate_item attributes.
Proof. destruct attributes; reflexivity. Qed.

Lemma populate_item_runs (self : object) (key : string) (v : value) :
  Model.populate_item (key, v) self =
  match stored_name key with
  | Some field => Model.set_attribute field v self
  | None => (Ok tt, self)
  end.
Proof.
  unfold Model.populate_item, stored_name.
  destruct (negb _); reflexivity.
Qed.

Lemma set_attribute_stores (self : object) (field : string) (v : value) :
  is_property (__class__ self) field = false ->
  Model.set_attribute field v self = (Ok tt, setattr self field v).
Proof.
  unfold is_property, Model.set_attribute. intros H.
  apply orb_false_elim in H as [-> ->]. reflexivity.
Qed.

Lemma set_attribute_refuses (self : object) (field : string) (v : value) :
  is_property (__class__ self) field = true ->
  exists name, (Model.set_attribute field v self).1 = Raise (AttributeError name).
Proof.
  unfold is_property, Model.set_attribute. intros H.
  destruct (read_only_property _ _); [eexists; reflexivity|].
  cbn in H. rewrite H. eexists; reflexivity.
Qed.

(** What an assignment of [populate] leaves as it is, whether it is made
    or refused. *)
Lemma set_attribute_frame (self : object) (field : string) (v : value) :
  __class__ (Model.set_attribute field v self).2 = __class__ self
  /\ _query_parameters (Model.set_attribute field v self).2 = _query_parameters self
  /\ (forall name, name ≠ field -> name ≠ "_object" ->
        __dict__ (Model.set_attribute field v self).2 !! name = __dict__ self !! name)
  /\ (settable_property (__class__ self) field = false ->
      _object (Model.set_attribute field v self).2 = _object self
      /\ forall name, name ≠ field ->
           __dict__ (Model.set_attribute field v self).2 !! name = __dict__ self !! name).
Proof.
  unfold Model.set_attribute.
  destruct (read_only_property _ _); [repeat split; reflexivity|].
  destruct (settable_property _ _); cbn.
  - repeat split; try discriminate.
    intros name _ Hname. apply lookup_insert_ne. congruence.
  - repeat split; intros name Hne; intros; apply lookup_insert_ne; congruence.
Qed.

Lemma populate_item_class (self : object) (item : string * value) :
  __class__ (Model.populate_item item self).2 = __class__ self
  /\ _query_parameters (Model.populate_item item self).2 = _query_parameters self.
Proof.
  destruct item as [key v]. rewrite populate_item_runs.
  destruct (stored_name key) as [field|]; [|split; reflexivity].
  destruct (set_attribute_frame self field v) as (H1 & H2 & _). split; assumption.
Qed.

Lemma populate_class (attributes : pydict) (self : object) :
  __class__ (Model.populate attributes self).2 = __class__ self
  /\ _query_parameters (Model.populate attributes self).2 = _query_parameters self.
Proof.
  rewrite populate_for_each. revert self.
  induction attributes as [|item rest IH]; intros self; [split; reflexivity|].
  rewrite for_each_cons.
  destruct (populate_item_class self item) as [H1 H2].
  destruct (Model.populate_item item self) as [[[]|e] s1]; cbn [snd] in *.
  - destruct (IH s1) as [G1 G2]. split; congruence.
  - split; assumption.
Qed.

(** An attribute that no item of the mapping is stored under is after
    [populate] as it was before, whether [populate] returns or raises. *)
Lemma populate_frame (attributes : pydict) (self : object) (name : string) :
  name ≠ "_object" ->
  (forall item, item ∈ attributes -> stored_name item.1 ≠ Some name) ->
  __dict__ (Model.populate attributes self).2 !! name = __dict__ self !! name.
Proof.
  intros Hname. rewrite populate_for_each. revert self.
  induction attributes as [|[key v] rest IH]; intros self Hitems; [reflexivity|].
  rewrite for_each_cons.
  assert (Hstep : __dict__ (Model.populate_item (key, v) self).2 !! name
                  = __dict__ self !! name).
  { rewrite populate_item_runs.
    destruct (stored_name key) as [field|] eqn:Hst; [|reflexivity].
    destruct (set_attribute_frame self field v) as (_ & _ & H & _).
    apply H; [|exact Hname]. intros ->. apply (Hitems (key, v)); [left|exact Hst]. }
  destruct (Model.populate_item (key, v) self) as [[[]|e] s1]; cbn [snd] in *;
    [|exact Hstep].
  rewrite IH; [exact Hstep|]. intros item Hitem. apply Hitems. right. exact Hitem.
Qed.

(** The reference to the owner is written by the setter of [obj] only. *)
Lemma populate_owner (attributes : pydict) (self : object) :
  derives_from "DomainModel" (__class__ self) = false
  \/ (forall item, item ∈ attributes -> stored_name item.1 ≠ Some "obj") ->
  _object (Model.populate attributes self).2 = _object self
  /\ __dict__ (Model.populate attributes self).2 !! "_object"
     = __dict__ self !! "_object".
Proof.
  rewrite populate_for_each. revert self.
  induction attributes as [|[key v] rest IH]; intros self Hobj; [split; reflexivity|].
  rewrite for_each_cons.
  assert (Hstep : _object (Model.populate_item (key, v) self).2 = _object self
                  /\ __dict__ (Model.populate_item (key, v) self).2 !! "_object"
                     = __dict__ self !! "_object").
  { rewrite populate_item_runs.
    destruct (stored_name key) as [field|] eqn:Hst; [|split; reflexivity].
    destruct (set_attribute_frame self field v) as (_ & _ & _ & H).
    assert (Hset : settable_property (__class__ self) field = false).
    { unfold settable_property. destruct Hobj as [-> | Hobj]; [reflexivity|].
      destruct (String.eqb_spec field "obj") as [->|]; [|apply andb_false_r].
      exfalso. apply (Hobj (key, v)); [left|exact Hst]. }
    destruct (H Hset) as [H1 H2]. split; [exact H1|]. apply H2.
    intros <-. apply stored_name_public in Hst as [Hp _]. discriminate Hp. }
  destruct (populate_item_class self (key, v)) as [Hc _].
  destruct (Model.populate_item (key, v) self) as [[[]|e] s1]; cbn [snd] in *;
    [|exact Hstep].
  destruct Hstep as [H1 H2].
  destruct (IH s1) as [G1 G2]; [|split; congruence].
  destruct Hobj as [Hd | Hobj]; [left; congruence|].
  right. intros item Hitem. apply Hobj. right. exact Hitem.
Qed.

Lemma store_item_other (self : object) (item : string * value) (field : string) :
  stored_name item.1 ≠ Some field ->
  __dict__ (store_item self item) !! field = __dict__ self !! field.
Proof.
  intros Hne. unfold store_item.
  destruct (stored_name item.1) as [f|]; [|reflexivity].
  simpl. apply lookup_insert_ne. congruence.
Qed.

Lemma stored_later_items (post : pydict) (self : object) (field : string) :
  (forall item, item ∈ post -> stored_name item.1 ≠ Some field) ->
  __dict__ (stored self post) !! field = __dict__ self !! field.
Proof.
  unfold stored. revert self.
  induction post as [|item post IH]; intros self Hpost; [reflexivity|].
  simpl. rewrite IH.
  - apply store_item_other, Hpost. left.
  - intros it Hit. apply Hpost. right. exact Hit.
Qed.

Lemma stored_frame (attributes : pydict) (self : object) :
  __class__ (stored self attributes) = __class__ self
  /\ _query_parameters (stored self attributes) = _query_parameters self
  /\ _object (stored self attributes) = _object self.
Proof.
  unfold stored. revert self.
  induction attributes as [|item rest IH]; intros self; cbn [fold_left].
  - repeat split; reflexivity.
  - destruct (IH (store_item self item)) as (H1 & H2 & H3).
    unfold store_item in *. destruct (stored_name item.1); repeat split; assumption.
Qed.

Lemma stored_app (self : object) (before after : pydict) :
  stored self (before ++ after) = stored (stored self before) after.
Proof. apply fold_left_app. Qed.

Lemma storable_app (c : class) (before after : pydict) :
  storable c (before ++ after) = storable c before && storable c after.
Proof. apply forallb_app. Qed.

(** When no item is stored under a property of the class, [populate]
    returns, and has made the assignments of the items in order. *)
Lemma populate_stores (attributes : pydict) (self : object) :
  storable (__class__ self) attributes = true ->
  Model.populate attributes self = (Ok tt, stored self attributes).
Proof.
  rewrite populate_for_each. unfold stored. revert self.
  induction attributes as [|[key v] rest IH]; intros self Hst; [reflexivity|].
  cbn [storable forallb fst] in Hst. apply andb_prop in Hst as [Hitem Hrest].
  rewrite for_each_cons, populate_item_runs. cbn [fold_left]. unfold store_item at 2.
  cbn [fst snd].
  destruct (stored_name key) as [field|].
  - rewrite set_attribute_stores by (apply negb_true_iff; exact Hitem).
    apply IH. exact Hrest.
  - apply IH. exact Hrest.
Qed.

(** The first item that is stored under a property of the class. *)
Lemma first_refused (c : class) (attributes : pydict) :
  storable c attributes = false ->
  exists before key v after field,
    attributes = (before ++ (key, v) :: after)%list
    /\ storable c before = true
    /\ stored_name key = Some field
    /\ is_property c field = true.
Proof.
  induction attributes as [|[key v] rest IH]; [discriminate|].
  cbn [storable forallb fst]. intros H.
  destruct (stored_name key) as [field|] eqn:Hst.
  - destruct (is_property c field) eqn:Hp.
    + exists [], key, v, rest, field. repeat split; assumption.
    + cbn in H. destruct (IH H) as (before & k & w & after & f & -> & Hb & Hk & Hf).
      exists ((key, v) :: before), k, w, after, f.
      repeat split; try assumption. cbn [storable forallb fst].
      rewrite Hst, Hp. exact Hb.
  - cbn in H. destruct (IH H) as (before & k & w & after & f & -> & Hb & Hk & Hf).
    exists ((key, v) :: before), k, w, after, f.
    repeat split; try assumption. cbn [storable forallb fst].
    rewrite Hst. exact Hb.
Qed.

(** [populate] stops at that item: the items before it have been stored,
    the assignment of the item is refused, and the items after it are not
    looked at. *)
Lemma populate_refused_at (self : object) (before after : pydict)
    (key field : string) (v : value) :
  storable (__class__ self) before = true ->
  stored_name key = Some field ->
  is_property (__class__ self) field = true ->
  Model.populate (before ++ (key, v) :: after) self
  = Model.set_attribute field v (stored self before)
  /\ exists name,
       (Model.set_attribute field v (stored self before)).1 = Raise (AttributeError name).
Proof.
  intros Hb Hst Hp.
  assert (Hraise : exists name,
             (Model.set_attribute field v (stored self before)).1
             = Raise (AttributeError name)).
  { apply set_attribute_refuses.
    destruct (stored_frame before self) as (-> & _). exact Hp. }
  split; [|exact Hraise]. clear Hraise.
  rewrite populate_for_each. revert self Hb Hp.
  induction before as [|[k w] before IH]; intros self Hb Hp.
  - cbn [app]. change (stored self []) with self.
    rewrite for_each_cons, populate_item_runs, Hst.
    destruct (set_attribute_refuses self field v Hp) as [name Hr].
    destruct (Model.set_attribute field v self) as [[[]|e] s1];
      [discriminate Hr|reflexivity].
  - cbn [storable forallb fst] in Hb. apply andb_prop in Hb as [Hitem Hrest].
    cbn [app]. rewrite for_each_cons, populate_item_runs.
    change (stored self ((k, w) :: before))
      with (stored (store_item self (k, w)) before).
    unfold store_item. cbn [fst snd].
    destruct (stored_name k) as [f|].
    + rewrite set_attribute_stores by (apply negb_true_iff; exact Hitem).
      apply IH; assumption.
    + apply IH; assumption.
Qed.

Lemma populate_refuses (attributes : pydict) (self : object) :
  storable (__class__ self) attributes = false ->
  exists name, (Model.populate attributes self).1 = Raise (AttributeError name).
Proof.
  intros H. destruct (first_refused _ _ H)
    as (before & key & v & after & field & -> & Hb & Hst & Hp).
  destruct (populate_refused_at self before after key field v Hb Hst Hp) as [-> Hr].
  exact Hr.
Qed.

Lemma to_json_emits (self : object) (field : string) (v : value) :
  __dict__ self !! field = Some v ->
  v ≠ VNone -> startswith field "_" = false -> field ≠ "uri" ->
  Model.to_json self !! emitted_name field = Some v.
Proof.
  intros Hf Hv Hpub Huri. unfold Model.to_json, emitted_name.
  set (d := filter _ _).
  assert (Hd : d !! field = Some v).
  { apply map_lookup_filter_Some. split; [exact Hf|]. simpl.
    rewrite Hpub. destruct v; try reflexivity. contradiction. }
  destruct (String.eqb_spec field "uri_") as [->|Hne].
  - rewrite Hd. apply lookup_insert_eq.
  - destruct (d !! "uri_") as [u|]; [|exact Hd].
    rewrite lookup_insert_ne by congruence.
    rewrite lookup_delete_ne by congruence. exact Hd.
Qed.

(** C2 (as amended). [populate] returns when no item of the mapping is
    stored under a property of the class of the entity, and raises an
    attribute error when one is. When it returns, [to_json] emits every
    item of the mapping whose value is not [None], whose stored name (the
    key with the prefix [id_] stripped, [uri] renamed [uri_] and [class]
    renamed [class_]) is not private and is not stored again by a later
    item of the mapping, with its value unchanged, under the emitted name
    of the stored name. The pair [uri] / [uri_] goes both ways: the key
    [uri] is stored as [uri_] and emitted as [uri]. The key [class] is
    stored as [class_] and emitted as [class_]. *)
Theorem populate_to_json_roundtrip
    (self : object) (before after : pydict) (key field : string) (v : value) :
  stored_name key = Some field ->
  v ≠ VNone ->
  (forall item, item ∈ after -> stored_name item.1 ≠ Some field) ->
  (storable (__class__ self) (before ++ (key, v) :: after) = true ->
   let populated := Model.populate (before ++ (key, v) :: after) self in
   populated.1 = Ok tt
   /\ __dict__ populated.2 !! field = Some v
   /\ Model.to_json populated.2 !! emitted_name field = Some v)
  /\ (storable (__class__ self) (before ++ (key, v) :: after) = false ->
      exists name,
        (Model.populate (before ++ (key, v) :: after) self).1
        = Raise (AttributeError name))
  /\ (key = "uri" -> field = "uri_" /\ emitted_name field = "uri")
  /\ (key = "class" -> field = "class_" /\ emitted_name field = "class_").
Proof.
  intros Hst Hv Hafter.
  split; [|split; [apply populate_refuses|]].
  - intros Hall populated. unfold populated. rewrite populate_stores by exact Hall.
    cbn [fst snd].
    assert (Hd : __dict__ (stored self (before ++ (key, v) :: after)) !! field = Some v).
    { rewrite stored_app.
      change (stored (stored self before) ((key, v) :: after))
        with (stored (store_item (stored self before) (key, v)) after).
      rewrite stored_later_items by exact Hafter.
      unfold store_item. cbn [fst snd]. rewrite Hst. apply lookup_insert_eq. }
    destruct (stored_name_public _ _ Hst) as [Hpub Huri].
    split; [reflexivity|]. split; [exact Hd|]. apply to_json_emits; assumption.
  - split; intros ->; vm_compute in Hst; injection Hst as <-; split; reflexivity.
Qed.

Lemma populate_to_json_roundtrip_witness :
  Model.to_json
    (Model.populate ([("id_ontology", VInt 5)] ++ ("uri", VStr "project/7")
                       :: [("name", VNone)])
       (Object Classes.Model ∅ [] None)).2
    !! "uri" = Some (VStr "project/7").
Proof.
  refine (proj2 (proj2 (proj1 (populate_to_json_roundtrip (Object Classes.Model ∅ [] None)
            [("id_ontology", VInt 5)] [("name", VNone)] "uri" "uri_" (VStr "project/7")
            _ _ _) _))).
  - reflexivity.
  - discriminate.
  - intros item Hitem. apply list_elem_of_singleton in Hitem. subst item.
    vm_compute. discriminate.
  - reflexivity.
Defined.

(** C2, counterexample. A new [Model] populated with the key [class] holds
    the value under [class_], and [to_json] emits it under [class_]: the
    emitted object has no key [class]. And [populate] with the key
    [callback_identifier] raises an attribute error, so that nothing of
    that mapping is emitted. *)
Lemma class_key_not_emitted_as_class :
  let built := new Classes.Model Model.__init__ empty_world in
  let attributes := [("class", VStr "be.cytomine.project.Project")] in
  built.1 = Ok 1%positive
  /\ (fun o => (Model.populate attributes o).1) <$> heap built.2 !! 1%positive
     = Some (Ok tt)
  /\ (fun o => __dict__ (Model.populate attributes o).2 !! "class_")
       <$> heap built.2 !! 1%positive
     = Some (Some (VStr "be.cytomine.project.Project"))
  /\ (fun o => Model.to_json (Model.populate attributes o).2 !! "class")
       <$> heap built.2 !! 1%positive
     = Some None
  /\ (fun o => Model.to_json (Model.populate attributes o).2 !! "class_")
       <$> heap built.2 !! 1%positive
     = Some (Some (VStr "be.cytomine.project.Project"))
  /\ (fun o => (Model.populate [("callback_identifier", VStr "tag")] o).1)
       <$> heap built.2 !! 1%positive
     = Some (Raise (AttributeError "callback_identifier")).
Proof. repeat split; vm_compute; reflexivity. Qed.

(** ** Properties of [DomainCollection.populate] *)

(** C10. [populate] of a domain-scoped collection writes the element
    sequence and nothing else: whatever the page envelope, and whether the
    construction of the elements succeeds or raises, the stored total and
    number of pages are those of before, and so is the guard of the loop of
    the paged fetch. A domain-scoped collection is constructed with the
    number of pages unset, so it is still unset after a populate and the
    guard of the loop holds for every number of pages fetched. *)
Theorem domain_populate_frame :
  (forall (T : Transport) (self : DomainCollection.t) (w : world T)
          (attributes : envelope) (append_mode : bool),
      let self' := (DomainCollection.populate attributes append_mode (self, w)).2.1 in
      self' = DomainCollection.set_base
                (Collection.set_data (Collection._data (DomainCollection.base self')))
                self
      /\ Collection._total (DomainCollection.base self')
         = Collection._total (DomainCollection.base self)
      /\ Collection._total_pages (DomainCollection.base self')
         = Collection._total_pages (DomainCollection.base self)
      /\ forall n_pages,
           Collection.fetch_continues (DomainCollection.base self') n_pages
           = Collection.fetch_continues (DomainCollection.base self) n_pages)
  /\ (forall (T : Transport) (w : world T) type_name callback model object
             filters max offset attributes append_mode,
        match DomainCollection.__init__ type_name callback model object
                filters max offset w with
        | (Ok self, w1) =>
            let self' := (DomainCollection.populate attributes append_mode (self, w1)).2.1 in
            Collection._total_pages (DomainCollection.base self) = None
            /\ Collection._total_pages (DomainCollection.base self') = None
            /\ forall n_pages,
                 Collection.fetch_continues (DomainCollection.base self') n_pages = true
        | (Raise _, _) => True
        end).
Proof.
  assert (Hframe : forall (T : Transport) (self : DomainCollection.t) (w : world T)
            (attributes : envelope) (append_mode : bool),
      let self' := (DomainCollection.populate attributes append_mode (self, w)).2.1 in
      self' = DomainCollection.set_base
                (Collection.set_data (Collection._data (DomainCollection.base self')))
                self).
  { intros T self w attributes append_mode.
    unfold DomainCollection.populate, bind, this, on_store, update_this, ret, raise.
    cbn [fst snd].
    destruct self as [[tn cb md dt al fl tot tp mx off] dc di [owner|]]; cbn;
      [|reflexivity].
    destruct (map_M _ _ w) as [[data|e] w']; cbn; [|reflexivity].
    destruct append_mode; reflexivity. }
  split.
  - intros T self w attributes append_mode self'.
    pose proof (Hframe T self w attributes append_mode) as H. fold self' in H.
    split; [exact H|]. rewrite H. unfold Collection.fetch_continues.
    repeat split; reflexivity.
  - intros T w type_name callback model object filters max offset attributes append_mode.
    destruct (DomainCollection.__init__ _ _ _ _ _ _ _ w) as [[self|e] w1] eqn:Hinit;
      [|exact I].
    assert (Hnone : Collection._total_pages (DomainCollection.base self) = None).
    { revert Hinit. unfold DomainCollection.__init__, bind, read, raise, ret.
      destruct (heap w !! object) as [o|] eqn:Ho; cbn; [|intros [=]].
      destruct (Model.is_new o) as [[|]|]; cbn; try (intros [=]; fail).
      rewrite Ho. destruct (attr o "class_"); cbn; [|intros [=]].
      rewrite Ho. destruct (attr o "id"); cbn; [|intros [=]].
      intros Heq. inversion Heq. reflexivity. }
    intros self'.
    pose proof (Hframe T self w1 attributes append_mode) as H. fold self' in H.
    split; [exact Hnone|].
    assert (Hsame : Collection._total_pages (DomainCollection.base self') = None)
      by (rewrite H; exact Hnone).
    split; [exact Hsame|]. intros n. unfold Collection.fetch_continues.
    rewrite Hsame. reflexivity.
Qed.

(** ** Properties of [Collection.uri] *)

Lemma append_cons (x : Ascii.ascii) (a b : string) :
  String x a ++ b = String x (a ++ b).
Proof. reflexivity. Qed.

Lemma append_assoc (a b c : string) : (a ++ b) ++ c = a ++ (b ++ c).
Proof.
  induction a as [|x a IH]; [reflexivity|].
  rewrite !append_cons, IH. reflexivity.
Qed.

Lemma length_append (a b : string) :
  String.length (a ++ b) = (String.length a + String.length b)%nat.
Proof.
  induction a as [|x a IH]; [reflexivity|].
  rewrite append_cons. cbn [String.length]. rewrite IH. reflexivity.
Qed.

(** C6. With filters requested, [uri] raises an invalid-argument error when
    more than one filter is set; with exactly one filter, [key] set to
    [v], it returns ["<key>/<v>/<kind>.json"] when the key is allowed and
    ["<kind>.json"] when it is not; with no filter it returns
    ["<kind>.json"], and so it does, whatever the filters, when
    [without_filters] is set. *)
Theorem collection_uri (self : Collection.t) :
  ((1 < length (Collection._filters self))%nat ->
     Collection.uri self false
     = Raise (ValueError "More than 1 filter not allowed by default."))
  /\ (forall key v,
        Collection._filters self = [(key, v)] ->
        Some key ∈ Collection._allowed_filters self ->
        Collection.uri self false
        = Ok (key ++ "/" ++ str v ++ "/" ++ Collection.callback_identifier self ++ ".json"))
  /\ (forall key v,
        Collection._filters self = [(key, v)] ->
        Some key ∉ Collection._allowed_filters self ->
        Collection.uri self false = Ok (Collection.callback_identifier self ++ ".json"))
  /\ (Collection._filters self = [] ->
        Collection.uri self false = Ok (Collection.callback_identifier self ++ ".json"))
  /\ Collection.uri self true = Ok (Collection.callback_identifier self ++ ".json").
Proof.
  unfold Collection.uri. repeat split.
  - intros Hlen. cbn. rewrite bool_decide_eq_true_2 by exact Hlen. reflexivity.
  - intros key v Hf Hin. rewrite Hf. cbn [negb length].
    rewrite (bool_decide_eq_false_2 (1 < 1)%nat) by lia. cbn.
    rewrite decide_True by exact Hin. cbn.
    rewrite bool_decide_eq_true_2.
    + rewrite !append_assoc. reflexivity.
    + rewrite !length_append. simpl. lia.
  - intros key v Hf Hin. rewrite Hf. cbn [negb length].
    rewrite (bool_decide_eq_false_2 (1 < 1)%nat) by lia. cbn.
    rewrite decide_False by exact Hin. reflexivity.
  - intros Hf. rewrite Hf. reflexivity.
Qed.

Lemma collection_uri_witness :
  let self := Collection.Make "UserGroupCollection" (Some "group") Classes.UserGroup []
                [Some "user"] [("user", VInt 5)] 0 None (Some 0%Z) 0 in
  Collection.uri self false = Ok "user/5/group.json"
  /\ Collection.uri (Collection.Make "UserGroupCollection" (Some "group")
                       Classes.UserGroup [] [Some "user"]
                       [("user", VInt 5); ("group", VInt 3)] 0 None (Some 0%Z) 0)
                    false
     = Raise (ValueError "More than 1 filter not allowed by default.").
Proof.
  split.
  - refine (proj1 (proj2 (collection_uri _)) "user" (VInt 5) _ _).
    + reflexivity.
    + cbn. set_solver.
  - refine (proj1 (collection_uri _) _). cbn. lia.
Defined.

(** ** Properties of the sequence operations of [Collection] *)

Lemma as_instance_none (h : gmap loc object) (value : pyval) (model : class) :
  isinstance_of h value model = false -> Collection.as_instance h value model = None.
Proof.
  intros H. destruct value; unfold Collection.as_instance; [rewrite H|]; reflexivity.
Qed.

(** A value of the declared kind is inserted at the index, clamped to the
    bounds of the sequence. *)
Lemma insert_instance (h : gmap loc object) (self : Collection.t) (l : loc) :
  isinstance_of h (PRef l) (Collection._model self) = true ->
  Collection.insert h 0 (PRef l) self
  = (Ok tt, Collection.set_data (l :: Collection._data self) self).
Proof.
  intros H. unfold Collection.insert, Collection.as_instance, bind, get.
  rewrite H. cbn [Z.ltb Z.compare].
  replace (Z.to_nat (0 `min` Z.of_nat (length (Collection._data self)))) with 0%nat by lia.
  reflexivity.
Qed.

(** C9. A value that is not an instance of the declared kind of the
    collection is refused with a type error by the indexed assignment and
    by [insert], whatever the index, and a collection of another concrete
    type is refused with a type error by [+=] and by [+]; in each case the
    collection, and so its element sequence, is left as it was. *)
Theorem collection_rejects_wrong_kind :
  (forall (h : gmap loc object) (self : Collection.t) (index : Z) (value : pyval),
      isinstance_of h value (Collection._model self) = false ->
      Collection.__setitem__ h index value self
      = (Raise (Collection.not_allowed h value self), self)
      /\ Collection.insert h index value self
         = (Raise (Collection.not_allowed h value self), self))
  /\ (forall (self other : Collection.t),
        Collection.type_name self ≠ Collection.type_name other ->
        Collection.__iadd__ other self
        = (Raise (TypeError "Only two same Collection objects can be added together."),
           self)
        /\ Collection.__add__ other self
           = (Raise (TypeError "Only two same Collection objects can be added together."),
              self)).
Proof.
  split.
  - intros h self index value Hkind.
    unfold Collection.__setitem__, Collection.insert, bind, get, raise.
    rewrite (as_instance_none _ _ _ Hkind). split; reflexivity.
  - intros self other Htype.
    unfold Collection.__iadd__, Collection.__add__, bind, get, raise.
    apply String.eqb_neq in Htype. rewrite Htype. split; reflexivity.
Qed.

Lemma collection_rejects_wrong_kind_witness :
  let h : gmap loc object :=
    {[ 1%positive := Object Classes.UserGroup ∅ [] None;
       2%positive := Object Classes.User ∅ [] None ]} in
  let users := Collection.Make "UserCollection" None Classes.User [2%positive]
                 [None; Some "project"; Some "ontology"] [] 0 None (Some 0%Z) 0 in
  let groups := Collection.Make "GroupCollection" None Classes.Group []
                  [None] [] 0 None (Some 0%Z) 0 in
  Collection.insert h 0 (PRef 1%positive) users
  = (Raise (TypeError "Value of type UserGroup not allowed in UserCollection."), users)
  /\ Collection.__iadd__ groups users
     = (Raise (TypeError "Only two same Collection objects can be added together."),
        users).
Proof.
  split.
  - refine (proj2 (proj1 collection_rejects_wrong_kind _ _ 0%Z (PRef 1%positive) _)).
    vm_compute. reflexivity.
  - refine (proj1 (proj2 collection_rejects_wrong_kind _ _ _)).
    vm_compute. discriminate.
Defined.

(** ** Properties of the chunked [Collection.save] *)

Section Chunks.
Context {A : Type}.
Implicit Types (data l : list A) (keep : nat -> bool).
Local Open Scope list_scope.






End Chunks.

Section Partition.
Local Open Scope list_scope.


End Partition.


(** Chunks that hold no element leave both partitions empty, whatever
    the answers of the worker. *)
Lemma empty_chunks_partition (data : list loc) (results : list ((nat * nat) * bool)) :
  Forall (fun result : (nat * nat) * bool => (result.1.2 <= result.1.1)%nat) results ->
  Collection.partition_results data results = ([], []).
Proof.
  unfold Collection.partition_results. generalize (@nil loc) at 1 3.
  generalize (@nil loc) at 1 2. intros failed added Hall. revert added failed.
  induction Hall as [|[[start end_] success] results Hrange _ IH]; intros added failed;
    [reflexivity|].
  cbn [fold_left]. cbn in Hrange.
  assert (Hnone : slice data start end_ = []).
  { unfold slice. replace (end_ - start)%nat with 0%nat by lia. apply take_0. }
  rewrite Hnone, !app_nil_r. destruct success; apply IH.
Qed.


(** A chunk size that is neither [None] nor an integer is refused. *)
Lemma save_invalid_chunk (post_collection : list loc -> bool)
    (_upload_fn : nat -> list loc -> bool) (self : Collection.t) (s : string)
    (n_workers : nat) :
  Collection.save post_collection _upload_fn self (VStr s) n_workers
  = Raise (ValueError ("Invalid value '" ++ s ++ "' for chunk parameter.")).
Proof. reflexivity. Qed.


(** ** Running the entity methods on the store *)

Section Runs.
Context {T : Transport}.
Implicit Types (h : gmap loc object) (r : server T) (c : list request)
               (o : object) (l self : loc).

Lemma world_focus (w : world T) l o :
  heap w !! l = Some o -> w = World (<[l := o]> (heap w)) (remote w) (calls w).
Proof. intros H. destruct w as [h r c]. cbn in *. rewrite insert_id by exact H. reflexivity. Qed.

Lemma read_in {A} (f : object -> res A) h r c l o :
  read l f (World (<[l := o]> h) r c) = (f o, World (<[l := o]> h) r c).
Proof. unfold read. cbn. rewrite lookup_insert_eq. reflexivity. Qed.


Lemma write_in (g : object -> object) h r c l o :
  write l g (World (<[l := o]> h) r c) = (Ok tt, World (<[l := g o]> h) r c).
Proof. unfold write. cbn. rewrite alter_insert_eq. reflexivity. Qed.

Lemma on_object_in {A} (m : M object A) h r c l o :
  on_object l m (World (<[l := o]> h) r c)
  = ((m o).1, World (<[l := (m o).2]> h) r c).
Proof.
  unfold on_object. cbn. rewrite lookup_insert_eq.
  destruct (m o) as [x o']. cbn. rewrite insert_insert_eq. reflexivity.
Qed.

Lemma transport_in (v : verb) h r c l o :
  transport v l (World (<[l := o]> h) r c)
  = (Ok (reply_ok (exchange T r v o).2),
     World (<[l := reply_entity (exchange T r v o).2]> h) (exchange T r v o).1
           (c ++ [Request v l o])).
Proof.
  unfold transport. cbn. rewrite lookup_insert_eq.
  destruct (exchange T r v o) as [s rp]. cbn. rewrite insert_insert_eq. reflexivity.
Qed.

Lemma fetch_runs self (id sid : value) h r c o :
  __dict__ o !! "id" = Some sid ->
  Model.fetch self id (World (<[self := o]> h) r c)
  = if is_None sid && is_None id then
      (Raise (ValueError "Cannot fetch a model with no ID."), World (<[self := o]> h) r c)
    else transport GET_MODEL self (World (<[self := with_id id o]> h) r c).
Proof.
  intros Hid. unfold Model.fetch, bind. rewrite read_in. unfold attr. rewrite Hid.
  destruct (is_None sid && is_None id); [reflexivity|].
  unfold with_id. destruct (is_None id); cbn [negb]; [reflexivity|].
  rewrite write_in. reflexivity.
Qed.

Lemma delete_runs self (id sid : value) h r c o :
  __dict__ o !! "id" = Some sid ->
  Model.delete self id (World (<[self := o]> h) r c)
  = if is_None sid && is_None id then
      (Raise (ValueError "Cannot delete a model with no ID."), World (<[self := o]> h) r c)
    else transport DELETE_MODEL self (World (<[self := with_id id o]> h) r c).
Proof.
  intros Hid. unfold Model.delete, bind. rewrite read_in. unfold attr. rewrite Hid.
  destruct (is_None sid && is_None id); [reflexivity|].
  unfold with_id. destruct (is_None id); cbn [negb]; [reflexivity|].
  rewrite write_in. reflexivity.
Qed.

Lemma update_runs self (id sid : value) (attributes : pydict) h r c o :
  __dict__ o !! "id" = Some sid ->
  Model.update self id attributes (World (<[self := o]> h) r c)
  = if is_None sid && is_None id then
      (Raise (ValueError "Cannot update a model with no ID."), World (<[self := o]> h) r c)
    else
      match (Model.populate attributes (with_id id o)).1 with
      | Ok _ =>
          transport PUT_MODEL self
            (World (<[self := (Model.populate attributes (with_id id o)).2]> h) r c)
      | Raise e =>
          (Raise e, World (<[self := (Model.populate attributes (with_id id o)).2]> h) r c)
      end.
Proof.
  intros Hid. unfold Model.update, bind. rewrite read_in. unfold attr. rewrite Hid.
  destruct (is_None sid && is_None id); [reflexivity|].
  assert (Hrest : forall x : object,
            (let (r0, s') :=
               match attributes with
               | [] => ret tt
               | _ :: _ => on_object self (Model.populate attributes)
               end (World (<[self := x]> h) r c) in
             match r0 with
             | Ok _ => transport PUT_MODEL self s'
             | Raise e => (Raise e, s')
             end)
            = match (Model.populate attributes x).1 with
              | Ok _ =>
                  transport PUT_MODEL self
                    (World (<[self := (Model.populate attributes x).2]> h) r c)
              | Raise e =>
                  (Raise e, World (<[self := (Model.populate attributes x).2]> h) r c)
              end).
  { intros x. destruct attributes as [|item rest]; [reflexivity|].
    rewrite on_object_in.
    destruct (Model.populate (item :: rest) x) as [[[]|e] x']; reflexivity. }
  unfold with_id. destruct (is_None id); cbn [negb].
  - unfold ret at 1. apply Hrest.
  - rewrite write_in. apply Hrest.
Qed.

Lemma save_runs self (sid : value) h r c o :
  __dict__ o !! "id" = Some sid ->
  Model.save self (World (<[self := o]> h) r c)
  = if is_None sid then transport POST_MODEL self (World (<[self := o]> h) r c)
    else
      match update_of (__class__ o) with
      | Some Of_Model => transport PUT_MODEL self (World (<[self := o]> h) r c)
      | Some (Rejected msg) =>
          (Raise (NotImplementedError msg), World (<[self := o]> h) r c)
      | Some Uploads => AttachedFile.upload self (World (<[self := o]> h) r c)
      | None => (Raise (AttributeError "update"), World (<[self := o]> h) r c)
      end.
Proof.
  intros Hid. unfold Model.save, bind. rewrite read_in. unfold attr. rewrite Hid.
  destruct (is_None sid) eqn:Hnew; [reflexivity|].
  rewrite read_in. destruct (update_of (__class__ o)) as [[|msg|]|]; try reflexivity.
  rewrite (update_runs _ _ sid) by exact Hid. rewrite Hnew. reflexivity.
Qed.


Lemma entity_save_runs self h r c o :
  Entity.save self (World (<[self := o]> h) r c)
  = match save_of (__class__ o) with
    | Some Of_Model => Model.save self (World (<[self := o]> h) r c)
    | Some (Rejected msg) =>
        (Raise (NotImplementedError msg), World (<[self := o]> h) r c)
    | Some Uploads => AttachedFile.upload self (World (<[self := o]> h) r c)
    | None => (Raise (AttributeError "save"), World (<[self := o]> h) r c)
    end.
Proof.
  unfold Entity.save, bind. rewrite read_in.
  destruct (save_of (__class__ o)) as [[|msg|]|]; reflexivity.
Qed.
End Runs.

(** ** Properties of [Model.is_new] and [Model.save] *)

(** C7 (as amended). [is_new] returns true exactly when [id] is [None].
    A call of [save] on an entity whose class takes [save] from [Model]
    and, when the entity is not new, [update] too, makes one transport
    call on the entity as it is: the create operation when the entity is
    new and the update operation otherwise; [save] returns what that call
    returns. Every kind of the sources but [Role], [AttachedFile],
    [UserGroup], [UserRole] and [RelationTerm] is such a class. When the
    class takes [save] from [Model] and defines an [update] that raises,
    as [UserGroup], [UserRole] and [RelationTerm] do, [save] of an entity
    that is not new raises the not-implemented error of that [update],
    with no transport call and the store as it was; and when the class
    defines a [save] that raises, as [Role] does, so does every call of
    [save]. *)
Theorem save_one_transport_call
    (T : Transport) (w : world T) (self : loc) (o : object) (id : value) :
  heap w !! self = Some o ->
  __dict__ o !! "id" = Some id ->
  (Model.is_new o = Ok true <-> id = VNone)
  /\ Model.is_new o = Ok (is_None id)
  /\ (save_of (__class__ o) = Some Of_Model ->
      is_None id = true \/ update_of (__class__ o) = Some Of_Model ->
      let operation := if is_None id then POST_MODEL else PUT_MODEL in
      Entity.save self w = Model.save self w
      /\ calls (Model.save self w).2 = (calls w ++ [Request operation self o])%list
      /\ (Model.save self w).1
         = Ok (reply_ok (exchange T (remote w) operation o).2))
  /\ (forall msg,
        save_of (__class__ o) = Some Of_Model ->
        is_None id = false ->
        update_of (__class__ o) = Some (Rejected msg) ->
        Entity.save self w = (Raise (NotImplementedError msg), w))
  /\ (forall msg,
        save_of (__class__ o) = Some (Rejected msg) ->
        Entity.save self w = (Raise (NotImplementedError msg), w))
  /\ Forall (fun c => save_of c = Some Of_Model /\ update_of c = Some Of_Model)
       [Classes.Model; Classes.DomainModel; Classes.User; Classes.CurrentUser;
        Classes.UserJob; Classes.Group; Classes.Property; Classes.Description;
        Classes.Tag; Classes.TagDomainAssociation; Classes.Ontology; Classes.Term;
        Classes.Project; Classes.AbstractImage; Classes.ImageInstance]
  /\ Forall (fun c => save_of c = Some Of_Model /\ exists msg, update_of c = Some (Rejected msg))
       [Classes.UserGroup; Classes.UserRole; Classes.RelationTerm]
  /\ (exists msg, save_of Classes.Role = Some (Rejected msg)).
Proof.
  intros Hself Hid.
  assert (Hnew : Model.is_new o = Ok (is_None id)).
  { unfold Model.is_new, attr. rewrite Hid. reflexivity. }
  assert (Hw : w = World (<[self := o]> (heap w)) (remote w) (calls w)).
  { destruct w as [h r c]. cbn. rewrite insert_id by exact Hself. reflexivity. }
  split; [|split; [exact Hnew|]].
  { rewrite Hnew. destruct id; cbn; split; congruence. }
  split; [|split; [|split; [|split; [|split]]]].
  - intros Hsave Hupdate operation. rewrite Hw. cbn [remote calls].
    rewrite entity_save_runs, Hsave. split; [reflexivity|].
    rewrite (save_runs self id) by exact Hid. unfold operation.
    destruct (is_None id).
    + rewrite transport_in. split; reflexivity.
    + destruct Hupdate as [Hfalse|Hupdate]; [discriminate Hfalse|].
      rewrite Hupdate, transport_in. split; reflexivity.
  - intros msg Hsave Hold Hupdate. rewrite Hw at 1.
    rewrite entity_save_runs, Hsave, (save_runs self id) by exact Hid.
    rewrite Hold, Hupdate, <- Hw. reflexivity.
  - intros msg Hsave. rewrite Hw at 1.
    rewrite entity_save_runs, Hsave, <- Hw. reflexivity.
  - repeat constructor.
  - repeat constructor; eexists; reflexivity.
  - eexists. reflexivity.
Qed.

Lemma save_one_transport_call_witness :
  let o := setattr (initialized (blank Classes.Project)) "id" (VInt 42) in
  let w := @World offline {[ 1%positive := o ]} tt [] in
  Entity.save 1%positive w = Model.save 1%positive w
  /\ calls (Model.save 1%positive w).2 = [Request PUT_MODEL 1%positive o]
  /\ (Model.save 1%positive w).1 = Ok false.
Proof.
  intros o w.
  refine (proj1 (proj2 (proj2 (save_one_transport_call offline w 1%positive o (VInt 42)
                                 _ _))) _ _).
  - reflexivity.
  - reflexivity.
  - reflexivity.
  - right. reflexivity.
Defined.

(** C7, counterexample. A [UserGroup] whose [id] is 12 is not new, and
    [save] on it raises the not-implemented error of [UserGroup.update]:
    no transport call is made, neither the create nor the update
    operation. *)
Lemma save_of_persisted_user_group_makes_no_call :
  let o := setattr (setattr (setattr (initialized (blank Classes.UserGroup))
                      "user" (VInt 3)) "group" (VInt 5)) "id" (VInt 12) in
  let w := @World offline {[ 1%positive := o ]} tt [] in
  Model.is_new o = Ok false
  /\ Entity.save 1%positive w
     = (Raise (NotImplementedError "Cannot update a user-group."), w)
  /\ Model.save 1%positive w
     = (Raise (NotImplementedError "Cannot update a user-group."), w)
  /\ calls (Entity.save 1%positive w).2 = [].
Proof. repeat split; vm_compute; reflexivity. Qed.

(** ** Failing fast: the checks of the identifiers *)

Section FailFast.
Context {T : Transport}.

Lemma init_runs (l : loc) (x : object) h (r : server T) c :
  Model.__init__ l (World (<[l := x]> h) r c)
  = (Ok tt, World (<[l := initialized x]> h) r c).
Proof. unfold Model.__init__, bind. rewrite !write_in. reflexivity. Qed.

Lemma new_runs (cl : class) (init : loc -> M (world T) unit) (w : world T) :
  new cl init w
  = match init (fresh (dom (heap w)))
            (World (<[fresh (dom (heap w)) := blank cl]> (heap w)) (remote w) (calls w)) with
    | (Ok _, w') => (Ok (fresh (dom (heap w))), w')
    | (Raise e, w') => (Raise e, w')
    end.
Proof. reflexivity. Qed.


(** [fetch], [delete] and [update] of [Model] on an entity with no
    identifier, called with none, raise before any write and before any
    transport call. *)
Lemma missing_id_fails_fast (w : world T) (self : loc) (o : object)
    (attributes : pydict) :
  heap w !! self = Some o ->
  __dict__ o !! "id" = Some VNone ->
  Model.fetch self VNone w = (Raise (ValueError "Cannot fetch a model with no ID."), w)
  /\ Model.delete self VNone w
     = (Raise (ValueError "Cannot delete a model with no ID."), w)
  /\ Model.update self VNone attributes w
     = (Raise (ValueError "Cannot update a model with no ID."), w).
Proof.
  intros Hself Hid. rewrite (world_focus w self o Hself).
  rewrite (fetch_runs _ _ VNone), (delete_runs _ _ VNone), (update_runs _ _ VNone)
    by exact Hid.
  repeat split; reflexivity.
Qed.
End FailFast.

(** C5, at the failing input. A [UserRole] built with neither a user nor a
    role is new; its [fetch], called with neither, raises the
    invalid-argument error and makes no transport call, and the entity
    has the identifier [-1] afterwards: it is no longer new. The same holds
    of [UserGroup]. *)
Lemma composite_fetch_failure_sets_id :
  (let built :=
     new Classes.UserRole (fun l => UserRole.__init__ l VNone VNone []) empty_world in
   let self := 1%positive in
   built.1 = Ok self
   /\ attr_at built.2 self "id" = Some (Ok VNone)
   /\ (UserRole.fetch self VNone VNone built.2).1
      = Raise (ValueError "Cannot fetch a model with no user ID.")
   /\ calls (UserRole.fetch self VNone VNone built.2).2 = []
   /\ attr_at (UserRole.fetch self VNone VNone built.2).2 self "id"
      = Some (Ok (VInt (-1))))
  /\ (let built :=
        new Classes.UserGroup (fun l => UserGroup.__init__ l VNone VNone []) empty_world in
      let self := 1%positive in
      built.1 = Ok self
      /\ attr_at built.2 self "id" = Some (Ok VNone)
      /\ (UserGroup.fetch self VNone VNone built.2).1
         = Raise (ValueError "Cannot fetch a model with no user ID.")
      /\ calls (UserGroup.fetch self VNone VNone built.2).2 = []
      /\ attr_at (UserGroup.fetch self VNone VNone built.2).2 self "id"
         = Some (Ok (VInt (-1)))).
Proof. repeat split; vm_compute; reflexivity. Qed.

(** ** Domain-scoped entities and collections *)

Section Domain.
Context {T : Transport}.


End Domain.




(** The URI of a [Description] is computed from the owner as it is when
    the method is called: for the same owner, changed after the
    construction, [DomainModel.uri] and [Description.uri] differ. *)
Lemma description_uri_follows_owner :
  let project :=
    setattr (setattr (blank Classes.Tag) "id" (VInt 42)) "class_" (VStr "be.Project") in
  let w := @World offline {[ 1%positive := project ]} tt [] in
  let w1 := (new Classes.Description (fun l => DomainModel.__init__ l 1%positive) w).2 in
  let later := @World offline (<[1%positive := setattr project "id" (VInt 43)]> (heap w1))
                 tt [] in
  (read 2%positive DomainModel.uri later).1 = Ok "domain/be.Project/42/description.json"
  /\ (Description.uri 2%positive later).1 = Ok "domain/be.Project/43/description.json".
Proof. split; vm_compute; reflexivity. Qed.

(** ** Further properties of [Model.populate] and [Model.to_json] *)

(** X1. [to_json] emits no null value, no private key and no key [uri_]:
    every item it emits is a public attribute of the entity with the same
    value, or is the attribute [uri_] emitted under the key [uri]. *)
Theorem to_json_emits_only (self : object) (key : string) (v : value) :
  Model.to_json self !! key = Some v ->
  v ≠ VNone
  /\ startswith key "_" = false
  /\ key ≠ "uri_"
  /\ (__dict__ self !! key = Some v
      \/ (key = "uri" /\ __dict__ self !! "uri_" = Some v)).
Proof.
  unfold Model.to_json. set (d := filter _ _).
  assert (Hd : forall k w, d !! k = Some w ->
            __dict__ self !! k = Some w /\ w ≠ VNone /\ startswith k "_" = false).
  { intros k w Hk. apply map_lookup_filter_Some in Hk as [Hk Hp]. cbn in Hp.
    apply andb_prop_elim in Hp as [Hn Hs]. cbn [fst snd] in Hn, Hs.
    split; [exact Hk|]. split.
    - intros ->. exact Hn.
    - apply negb_prop_elim in Hs. unfold startswith in *.
      destruct (String.prefix "_" k); [|reflexivity].
      exfalso. apply Hs. exact I. }
  destruct (d !! "uri_") as [u|] eqn:Hu.
  - destruct (decide (key = "uri")) as [->|Hne].
    + rewrite lookup_insert_eq. intros [= <-].
      destruct (Hd _ _ Hu) as (Hk & Hn & _).
      repeat split; [exact Hn|discriminate|right; split; [reflexivity|exact Hk]].
    + rewrite lookup_insert_ne by congruence.
      destruct (decide (key = "uri_")) as [->|Hne'].
      * rewrite lookup_delete_eq. discriminate.
      * rewrite lookup_delete_ne by congruence. intros Hk.
        destruct (Hd _ _ Hk) as (Hk' & Hn & Hs).
        repeat split; [exact Hn|exact Hs|exact Hne'|left; exact Hk'].
  - intros Hk. destruct (Hd _ _ Hk) as (Hk' & Hn & Hs).
    repeat split; [exact Hn|exact Hs| |left; exact Hk'].
    intros ->. congruence.
Qed.

Lemma to_json_emits_only_witness :
  let self := setattr (setattr (setattr (blank Classes.Model) "uri_" (VStr "u"))
                         "_secret" (VInt 1)) "name" VNone in
  VStr "u" ≠ VNone
  /\ startswith "uri" "_" = false
  /\ "uri" ≠ "uri_"
  /\ (__dict__ self !! "uri" = Some (VStr "u")
      \/ ("uri" = "uri" /\ __dict__ self !! "uri_" = Some (VStr "u"))).
Proof.
  intros self. apply (to_json_emits_only self "uri" (VStr "u")).
  vm_compute. reflexivity.
Defined.

Lemma stored_name_not_class (key : string) : stored_name key ≠ Some "class".
Proof.
  unfold stored_name.
  set (k1 := if startswith key "id_" then str_from 3 key else key).
  destruct (String.eqb_spec k1 "uri") as [->|Hne]; [discriminate|].
  destruct (startswith k1 "_"); simpl; [discriminate|].
  destruct (String.eqb_spec k1 "class") as [->|Hnc]; [discriminate|congruence].
Qed.

(** X2. [populate] never writes a private attribute, nor an attribute
    named [uri] or [class], whatever the keys of the mapping and whether
    it returns or raises: such an attribute is after [populate] as it was
    before, and so are the class of the entity and its query parameters.
    The one exception is the reference to the owner: it is as it was
    before when the class does not derive from [DomainModel] or no item
    is stored as [obj], and it is replaced by the value of the item,
    before the attribute error is raised, when the class does and the
    item is the first that is stored under a property. *)
Theorem populate_never_writes (self : object) (attributes : pydict) (name : string) :
  startswith name "_" = true \/ name = "uri" \/ name = "class" ->
  (let populated := (Model.populate attributes self).2 in
   __class__ populated = __class__ self
   /\ _query_parameters populated = _query_parameters self
   /\ (name ≠ "_object" -> __dict__ populated !! name = __dict__ self !! name)
   /\ (derives_from "DomainModel" (__class__ self) = false
       \/ (forall item, item ∈ attributes -> stored_name item.1 ≠ Some "obj") ->
       _object populated = _object self
       /\ __dict__ populated !! name = __dict__ self !! name))
  /\ (forall (before after : pydict) (key : string) (v : value),
        derives_from "DomainModel" (__class__ self) = true ->
        storable (__class__ self) before = true ->
        stored_name key = Some "obj" ->
        let populated := Model.populate (before ++ (key, v) :: after) self in
        populated.1 = Raise (AttributeError "class_")
        /\ _object populated.2 = None
        /\ __dict__ populated.2 !! "_object" = Some v).
Proof.
  intros Hname.
  assert (Hnot : forall item : string * value, stored_name item.1 ≠ Some name).
  { intros item Hst. destruct Hname as [Hp|[->| ->]].
    - apply stored_name_public in Hst as [Hpub _]. congruence.
    - apply stored_name_public in Hst as [_ Hu]. congruence.
    - exact (stored_name_not_class _ Hst). }
  split.
  - intros populated. unfold populated.
    destruct (populate_class attributes self) as [Hc Hq].
    split; [exact Hc|]. split; [exact Hq|]. split.
    + intros Hne. apply populate_frame; [exact Hne|]. intros item _. apply Hnot.
    + intros Hobj. destruct (populate_owner attributes self Hobj) as [Ho Hd].
      split; [exact Ho|].
      destruct (decide (name = "_object")) as [->|Hne]; [exact Hd|].
      apply populate_frame; [exact Hne|]. intros item _. apply Hnot.
  - intros before after key v Hd Hb Hst populated. unfold populated.
    assert (Hp : is_property (__class__ self) "obj" = true).
    { unfold is_property, settable_property. rewrite Hd. apply orb_true_r. }
    destruct (populate_refused_at self before after key "obj" v Hb Hst Hp) as [-> _].
    unfold Model.set_attribute.
    destruct (stored_frame before self) as (-> & _).
    assert (Hro : read_only_property (__class__ self) "obj" = false)
      by (unfold read_only_property; apply andb_false_r).
    rewrite Hro. unfold settable_property. rewrite Hd. cbn.
    split; [reflexivity|]. split; [reflexivity|]. apply lookup_insert_eq.
Qed.

Lemma populate_never_writes_witness :
  let self := setattr (blank Classes.Model) "_token" (VInt 1) in
  __dict__ (Model.populate [("id__token", VInt 2); ("_token", VInt 3)] self).2 !! "_token"
  = Some (VInt 1).
Proof.
  intros self.
  refine (proj1 (proj2 (proj2 (proj1 (populate_never_writes self _ "_token" _)))) _).
  - left. reflexivity.
  - discriminate.
Defined.

Lemma stored_lookup (attributes : pydict) (self : object) (field : string) :
  __dict__ (stored self attributes) !! field
  = match stored_last field attributes with
    | Some v => Some v
    | None => __dict__ self !! field
    end.
Proof.
  unfold stored. revert self.
  induction attributes as [|[key v] rest IH]; intros self; [reflexivity|].
  cbn [fold_left stored_last]. rewrite IH.
  destruct (stored_last field rest); [reflexivity|].
  unfold store_item. cbn [fst snd].
  destruct (decide (stored_name key = Some field)) as [Hst|Hst].
  - rewrite Hst. apply lookup_insert_eq.
  - destruct (stored_name key) as [f|]; [|reflexivity].
    apply lookup_insert_ne. congruence.
Qed.

Lemma stored_last_public (attributes : pydict) (field : string) (v : value) :
  stored_last field attributes = Some v -> startswith field "_" = false.
Proof.
  revert v. induction attributes as [|[key w] rest IH]; intros v; [discriminate|].
  cbn [stored_last].
  destruct (stored_last field rest) as [x|]; [intros _; exact (IH x eq_refl)|].
  destruct (decide (stored_name key = Some field)) as [Hst|]; [|discriminate].
  intros _. apply stored_name_public in Hst as [H _]. exact H.
Qed.

(** An entity that holds already the value of the last item stored under
    each attribute is as it was after the assignments. *)
Lemma stored_absorbed (attributes : pydict) (self : object) :
  (forall field v, stored_last field attributes = Some v ->
                   __dict__ self !! field = Some v) ->
  stored self attributes = self.
Proof.
  intros H. destruct (stored_frame attributes self) as (H1 & H2 & H3).
  assert (Hd : __dict__ (stored self attributes) = __dict__ self).
  { apply map_eq. intros field. rewrite stored_lookup.
    destruct (stored_last field attributes) as [v|] eqn:Hl; [|reflexivity].
    symmetry. apply H. exact Hl. }
  destruct (stored self attributes) as [c d q r].
  destruct self as [c' d' q' r']. cbn in *. congruence.
Qed.

(** X3. [populate] is idempotent: populating an entity a second time with
    the same mapping returns, or raises, as the first time did, and
    changes nothing, each attribute holding already the value of the last
    item stored under it. *)
Theorem populate_idempotent (self : object) (attributes : pydict) :
  Model.populate attributes (Model.populate attributes self).2
  = Model.populate attributes self.
Proof.
  destruct (storable (__class__ self) attributes) eqn:Hst.
  - rewrite (populate_stores attributes self Hst). cbn [snd].
    rewrite populate_stores
      by (destruct (stored_frame attributes self) as (-> & _); exact Hst).
    f_equal. apply stored_absorbed. intros field v Hl.
    rewrite stored_lookup, Hl. reflexivity.
  - destruct (first_refused _ _ Hst)
      as (before & key & v & after & field & -> & Hb & Hk & Hp).
    destruct (populate_refused_at self before after key field v Hb Hk Hp) as [-> _].
    set (s0 := stored self before).
    assert (Hc0 : __class__ s0 = __class__ self)
      by (destruct (stored_frame before self) as (H & _); exact H).
    assert (Hs0 : forall f x, stored_last f before = Some x -> __dict__ s0 !! f = Some x).
    { intros f x Hl. unfold s0. rewrite stored_lookup, Hl. reflexivity. }
    destruct (set_attribute_frame s0 field v) as (Hc & _ & Hd & _).
    rewrite Hc0 in Hc.
    destruct (populate_refused_at (Model.set_attribute field v s0).2
                before after key field v) as [-> _];
      [rewrite Hc; exact Hb|exact Hk|rewrite Hc; exact Hp|].
    rewrite stored_absorbed.
    + unfold Model.set_attribute. rewrite Hc0.
      destruct (read_only_property (__class__ self) field) eqn:Hro.
      * cbn [snd]. rewrite Hc0, Hro. reflexivity.
      * unfold is_property in Hp. rewrite Hro in Hp. cbn in Hp. rewrite Hp.
        cbn [snd __class__]. rewrite Hro, Hp. cbn. rewrite insert_insert_eq.
        reflexivity.
    + intros f x Hl.
      assert (Hpub : startswith f "_" = false) by exact (stored_last_public _ _ _ Hl).
      unfold Model.set_attribute. rewrite Hc0.
      destruct (read_only_property (__class__ self) field) eqn:Hro;
        [cbn [snd]; apply Hs0; exact Hl|].
      unfold is_property in Hp. rewrite Hro in Hp. cbn in Hp. rewrite Hp.
      cbn [snd __dict__]. rewrite lookup_insert_ne; [apply Hs0; exact Hl|].
      intros <-. discriminate Hpub.
Qed.

(** ** Addresses *)

Lemma with_id_attr (id sid : value) (o : object) :
  __dict__ o !! "id" = Some sid ->
  attr (with_id id o) "id" = Ok (if is_None id then sid else id).
Proof.
  intros Hid. unfold with_id, attr. destruct (is_None id); cbn.
  - rewrite Hid. reflexivity.
  - rewrite lookup_insert_eq. reflexivity.
Qed.

(** X4. The URI of a domain-scoped entity is the URI the entity would have
    as a plain entity, nested under ["domain/<class>/<id>/"] of the owner
    it holds the class and the identifier of. *)
Theorem domain_uri_nests (self : object) (c i : value) (u : string) :
  attr self "domainClassName" = Ok c ->
  attr self "domainIdent" = Ok i ->
  Model.uri self = Ok u ->
  DomainModel.uri self = Ok ("domain/" ++ str c ++ "/" ++ str i ++ "/" ++ u).
Proof.
  intros Hc Hi. unfold DomainModel.uri, Model.uri. rewrite Hc, Hi.
  destruct (Model.is_new self) as [[|]|e]; [| |discriminate].
  - intros [= <-]. reflexivity.
  - destruct (attr self "id") as [id|e]; [|discriminate].
    intros [= <-]. reflexivity.
Qed.

Lemma domain_uri_nests_witness :
  let self := setattr (domain_initialized 1%positive (VStr "be.Project") (VInt 42)
                         (blank Classes.Property)) "id" (VInt 7) in
  DomainModel.uri self
  = Ok ("domain/" ++ str (VStr "be.Project") ++ "/" ++ str (VInt 42) ++ "/"
        ++ "property/7.json").
Proof.
  intros self. apply (domain_uri_nests self); reflexivity.
Defined.

(** X5. [fetch] and [delete] called with an identifier hand to the
    transport an entity whose URI is the item endpoint of that identifier,
    ["<kind>/<id>.json"], whatever identifier the entity had; [save] of a
    new entity hands it with the URI of the collection endpoint,
    ["<kind>.json"]. *)
Theorem model_addresses
    (T : Transport) (w : world T) (self : loc) (o : object) (sid id : value) :
  heap w !! self = Some o ->
  __dict__ o !! "id" = Some sid ->
  id ≠ VNone ->
  (exists e,
      calls (Model.fetch self id w).2 = (calls w ++ [Request GET_MODEL self e])%list
      /\ Model.uri e = Ok (Model.callback_identifier o ++ "/" ++ str id ++ ".json"))
  /\ (exists e,
        calls (Model.delete self id w).2
        = (calls w ++ [Request DELETE_MODEL self e])%list
        /\ Model.uri e = Ok (Model.callback_identifier o ++ "/" ++ str id ++ ".json"))
  /\ (sid = VNone ->
      calls (Model.save self w).2 = (calls w ++ [Request POST_MODEL self o])%list
      /\ Model.uri o = Ok (Model.callback_identifier o ++ ".json")).
Proof.
  intros Hself Hid Hgiven.
  assert (Hnone : is_None id = false) by (destruct id; try reflexivity; contradiction).
  assert (Huri : Model.uri (with_id id o)
                 = Ok (Model.callback_identifier o ++ "/" ++ str id ++ ".json")).
  { unfold Model.uri, Model.is_new. rewrite (with_id_attr id sid o Hid), Hnone.
    unfold with_id. rewrite Hnone. reflexivity. }
  destruct w as [h r c]. cbn [heap remote calls] in *.
  rewrite <- (insert_id h self o Hself).
  rewrite (fetch_runs _ _ sid), (delete_runs _ _ sid), (save_runs _ sid) by exact Hid.
  rewrite Hnone, andb_false_r, !transport_in. cbn [snd calls].
  split; [eexists; split; [reflexivity|exact Huri]|].
  split; [eexists; split; [reflexivity|exact Huri]|].
  intros ->. split; [reflexivity|].
  unfold Model.uri, Model.is_new, attr. rewrite Hid. reflexivity.
Qed.

Lemma model_addresses_witness :
  let o := setattr (blank Classes.Tag) "id" (VInt 3) in
  let w := @World offline {[ 1%positive := o ]} tt [] in
  exists e,
    calls (Model.fetch 1%positive (VInt 9) w).2 = [Request GET_MODEL 1%positive e]
    /\ Model.uri e = Ok (Model.callback_identifier o ++ "/" ++ str (VInt 9) ++ ".json").
Proof.
  intros o w.
  refine (proj1 (model_addresses offline w 1%positive o (VInt 3) (VInt 9) _ _ _)).
  - reflexivity.
  - reflexivity.
  - discriminate.
Defined.

(** ** Further properties of the sequence operations of [Collection] *)

Section Sequence.
Local Open Scope list_scope.
Implicit Types (h : gmap loc object) (self : Collection.t) (l : loc) (index : Z).

Lemma as_instance_some h l (model : class) :
  isinstance_of h (PRef l) model = true ->
  Collection.as_instance h (PRef l) model = Some l.
Proof. intros H. unfold Collection.as_instance. rewrite H. reflexivity. Qed.

Lemma set_data_same self : Collection.set_data (Collection._data self) self = self.
Proof. destruct self. reflexivity. Qed.

Lemma setitem_runs h self index l :
  isinstance_of h (PRef l) (Collection._model self) = true ->
  let n := Z.of_nat (length (Collection._data self)) in
  Collection.__setitem__ h index (PRef l) self
  = if bool_decide (- n <= index < n)%Z then
      (Ok tt, Collection.set_data
                (<[Z.to_nat (index `mod` n) := l]> (Collection._data self)) self)
    else (Raise IndexError, self).
Proof.
  intros H n. unfold Collection.__setitem__, bind, get, raise.
  rewrite (as_instance_some _ _ _ H). fold n.
  destruct (bool_decide (- n <= index < n)%Z); reflexivity.
Qed.

Lemma getitem_runs self index :
  let n := Z.of_nat (length (Collection._data self)) in
  Collection.__getitem__ index self
  = if bool_decide (- n <= index < n)%Z then
      match Collection._data self !! Z.to_nat (index `mod` n) with
      | Some l => (Ok l, self)
      | None => (Raise IndexError, self)
      end
    else (Raise IndexError, self).
Proof.
  intros n. unfold Collection.__getitem__, bind, get, raise, ret. fold n.
  destruct (bool_decide (- n <= index < n)%Z); [|reflexivity].
  destruct (Collection._data self !! _); reflexivity.
Qed.

Lemma index_in_range (n index : Z) :
  (- n <= index < n)%Z -> (0 <= index `mod` n < n)%Z.
Proof. intros H. apply Z.mod_pos_bound. lia. Qed.

(** X6. An indexed assignment of a value of the declared kind at a valid
    index, negative indices counting from the end, is read back by the
    indexed read at that index; the length is unchanged, and so is the
    element at every other position. At an index out of range it raises
    [IndexError] and leaves the collection as it was. *)
Theorem setitem_getitem h self index l :
  isinstance_of h (PRef l) (Collection._model self) = true ->
  let n := Z.of_nat (length (Collection._data self)) in
  ((- n <= index < n)%Z ->
     let self' := (Collection.__setitem__ h index (PRef l) self).2 in
     (Collection.__setitem__ h index (PRef l) self).1 = Ok tt
     /\ (Collection.__getitem__ index self').1 = Ok l
     /\ Collection.__len__ self' = Collection.__len__ self
     /\ forall j, (- n <= j < n)%Z -> (j `mod` n ≠ index `mod` n)%Z ->
          (Collection.__getitem__ j self').1 = (Collection.__getitem__ j self).1)
  /\ (~ (- n <= index < n)%Z ->
      Collection.__setitem__ h index (PRef l) self = (Raise IndexError, self)).
Proof.
  intros H n. rewrite (setitem_runs h self index l H). fold n. split.
  - intros Hin. rewrite bool_decide_eq_true_2 by exact Hin. cbn [fst snd].
    pose proof (index_in_range n index Hin) as Hmod.
    assert (Hlen : length (<[Z.to_nat (index `mod` n) := l]> (Collection._data self))
                   = length (Collection._data self)) by apply length_insert.
    split; [reflexivity|]. split; [|split].
    + rewrite getitem_runs. cbn [Collection._data Collection.set_data].
      rewrite Hlen. fold n. rewrite bool_decide_eq_true_2 by exact Hin.
      rewrite list_lookup_insert_eq by (unfold n in *; lia). reflexivity.
    + unfold Collection.__len__. cbn. exact Hlen.
    + intros j Hj Hne. rewrite !getitem_runs.
      cbn [Collection._data Collection.set_data]. rewrite Hlen. fold n.
      rewrite bool_decide_eq_true_2 by exact Hj.
      pose proof (index_in_range n j Hj) as Hjm.
      rewrite list_lookup_insert_ne by lia.
      destruct (Collection._data self !! _); reflexivity.
  - intros Hout. rewrite bool_decide_eq_false_2 by exact Hout. reflexivity.
Qed.

Lemma setitem_getitem_witness :
  let h : gmap loc object :=
    {[ 1%positive := blank Classes.User; 2%positive := blank Classes.CurrentUser;
       3%positive := blank Classes.User ]} in
  let users := Collection.Make "UserCollection" None Classes.User [1; 3]%positive
                 [None; Some "project"; Some "ontology"] [] 0 None (Some 0%Z) 0 in
  (Collection.__getitem__ (-1)
     (Collection.__setitem__ h (-1) (PRef 2%positive) users).2).1 = Ok 2%positive.
Proof.
  intros h users.
  refine (proj1 (proj2 (proj1 (setitem_getitem h users (-1) 2%positive _) _))).
  - reflexivity.
  - cbn. lia.
Defined.
End Sequence.

Section Insertion.
Local Open Scope list_scope.
Implicit Types (h : gmap loc object) (self : Collection.t) (l : loc) (index : Z).

Lemma insert_runs h self index l :
  isinstance_of h (PRef l) (Collection._model self) = true ->
  let n := Z.of_nat (length (Collection._data self)) in
  let i := Z.to_nat (if (index <? 0)%Z then Z.max 0 (index + n) else Z.min index n) in
  Collection.insert h index (PRef l) self
  = (Ok tt, Collection.set_data
              (take i (Collection._data self) ++ l :: drop i (Collection._data self))
              self).
Proof.
  intros H n i. unfold Collection.insert, bind, get.
  rewrite (as_instance_some _ _ _ H). reflexivity.
Qed.

Lemma append_runs h self l :
  isinstance_of h (PRef l) (Collection._model self) = true ->
  Collection.append h (PRef l) self
  = (Ok tt, Collection.set_data (Collection._data self ++ [l]) self).
Proof.
  intros H. unfold Collection.append, bind, get. rewrite (insert_runs h self _ l H).
  unfold Collection.__len__.
  replace (Z.to_nat _) with (length (Collection._data self)).
  - rewrite take_ge, drop_ge by lia. reflexivity.
  - destruct (Z.ltb_spec (Z.of_nat (length (Collection._data self))) 0); lia.
Qed.



Lemma delitem_runs self index :
  let n := Z.of_nat (length (Collection._data self)) in
  Collection.__delitem__ index self
  = if bool_decide (- n <= index < n)%Z then
      (Ok tt, Collection.set_data
                (delete (Z.to_nat (index `mod` n)) (Collection._data self)) self)
    else (Raise IndexError, self).
Proof.
  intros n. unfold Collection.__delitem__, bind, get, raise. fold n.
  destruct (bool_decide (- n <= index < n)%Z); reflexivity.
Qed.

(** X8. Deleting the element at a valid index makes the collection one
    element shorter, and inserting that element again at the same index
    (counted from the start) gives the collection back; a deletion at an
    index out of range raises [IndexError] and changes nothing. *)
Theorem delitem_insert h self index l :
  isinstance_of h (PRef l) (Collection._model self) = true ->
  let n := Z.of_nat (length (Collection._data self)) in
  ((0 <= index < n)%Z ->
     (Collection.__getitem__ index self).1 = Ok l ->
     let self' := (Collection.__delitem__ index self).2 in
     (Collection.__delitem__ index self).1 = Ok tt
     /\ S (Collection.__len__ self') = Collection.__len__ self
     /\ Collection.insert h index (PRef l) self' = (Ok tt, self))
  /\ (~ (- n <= index < n)%Z ->
      Collection.__delitem__ index self = (Raise IndexError, self)).
Proof.
  intros H n. rewrite delitem_runs. fold n. split.
  - intros Hin. rewrite getitem_runs. fold n.
    rewrite !bool_decide_eq_true_2 by lia.
    rewrite Z.mod_small by lia.
    destruct (Collection._data self !! Z.to_nat index) as [x|] eqn:Hx; [|discriminate].
    intros [= ->]. cbn [fst snd].
    set (d := Collection._data self) in *.
    assert (Hdl : S (length (delete (Z.to_nat index) d)) = length d).
    { rewrite length_delete by eauto. unfold n in Hin. lia. }
    split; [reflexivity|]. split; [exact Hdl|].
    rewrite insert_runs by exact H.
    cbn [Collection._data Collection.set_data].
    replace (Z.to_nat _) with (Z.to_nat index).
    + rewrite delete_take_drop.
      assert (Htl : length (take (Z.to_nat index) d) = Z.to_nat index)
        by (rewrite length_take; unfold n in Hin; lia).
      rewrite take_app_length' by (symmetry; exact Htl).
      rewrite drop_app_length' by (symmetry; exact Htl).
      rewrite (take_drop_middle d (Z.to_nat index) l Hx).
      destruct self; reflexivity.
    + destruct (Z.ltb_spec index 0); lia.
  - intros Hout. rewrite bool_decide_eq_false_2 by exact Hout. reflexivity.
Qed.

Lemma delitem_insert_witness :
  let h : gmap loc object :=
    {[ 1%positive := blank Classes.User; 2%positive := blank Classes.User ]} in
  let users := Collection.Make "UserCollection" None Classes.User [1; 2]%positive
                 [None; Some "project"; Some "ontology"] [] 0 None (Some 0%Z) 0 in
  Collection.insert h 0 (PRef 1%positive) (Collection.__delitem__ 0 users).2
  = (Ok tt, users).
Proof.
  intros h users.
  refine (proj2 (proj2 (proj1 (delitem_insert h users 0 1%positive _) _ _))).
  - reflexivity.
  - cbn. lia.
  - reflexivity.
Defined.
End Insertion.

Section Concatenation.
Local Open Scope list_scope.
Implicit Types (h : gmap loc object) (a b c self : Collection.t) (l : loc).

Lemma add_runs a b :
  Collection.type_name a = Collection.type_name b ->
  Collection.__add__ b a
  = (Ok (Collection.set_data (Collection._data a ++ Collection._data b) a), a).
Proof.
  intros Ht. destruct a, b. cbn in Ht. subst.
  unfold Collection.__add__, Collection.__iadd__, bind, get, raise, ret.
  cbn [Collection.type_name Collection.set_data Collection._data negb].
  rewrite !String.eqb_refl. cbn. rewrite !String.eqb_refl. reflexivity.
Qed.

(** X9. For collections of one concrete type, [a + b] is a new collection
    with the elements of [a] followed by those of [b] and the settings of
    [a]; neither operand is written; the length of the sum is the sum of
    the lengths; and [(a + b) + c] is [a + (b + c)]. *)
Theorem add_concatenates a b c :
  Collection.type_name a = Collection.type_name b ->
  Collection.type_name b = Collection.type_name c ->
  exists ab bc abc,
    Collection.__add__ b a = (Ok ab, a)
    /\ Collection.__add__ c b = (Ok bc, b)
    /\ ab = Collection.set_data (Collection._data a ++ Collection._data b) a
    /\ Collection.__len__ ab = (Collection.__len__ a + Collection.__len__ b)%nat
    /\ Collection.__add__ c ab = (Ok abc, ab)
    /\ Collection.__add__ bc a = (Ok abc, a).
Proof.
  intros Hab Hbc. eexists _, _, _.
  rewrite (add_runs a b Hab), (add_runs b c Hbc).
  split; [reflexivity|]. split; [reflexivity|]. split; [reflexivity|].
  split; [unfold Collection.__len__; cbn; apply length_app|].
  rewrite !add_runs by (cbn; congruence).
  cbn [Collection._data Collection.set_data]. rewrite <- app_assoc.
  split; reflexivity.
Qed.

Lemma add_concatenates_witness :
  let a := Collection.Make "TagCollection" None Classes.Tag [1]%positive
             [None] [] 0 None (Some 0%Z) 0 in
  let b := Collection.Make "TagCollection" None Classes.Tag [2; 3]%positive
             [None] [] 5 (Some 1%Z) (Some 10%Z) 0 in
  exists ab bc abc,
    Collection.__add__ b a = (Ok ab, a)
    /\ Collection.__add__ a b = (Ok bc, b)
    /\ ab = Collection.set_data (Collection._data a ++ Collection._data b) a
    /\ Collection.__len__ ab = (Collection.__len__ a + Collection.__len__ b)%nat
    /\ Collection.__add__ a ab = (Ok abc, ab)
    /\ Collection.__add__ bc a = (Ok abc, a).
Proof.
  intros a b. apply (add_concatenates a b a); reflexivity.
Defined.

(** The values of a list that are references to instances of [model]. *)
Lemma extend_instances h self (ls : list loc) :
  Forall (fun l => isinstance_of h (PRef l) (Collection._model self) = true) ls ->
  Collection.extend h (map PRef ls) self
  = (Ok tt, Collection.set_data (Collection._data self ++ ls) self).
Proof.
  revert self. induction ls as [|l ls IH]; intros self Hall.
  - cbn. rewrite app_nil_r, set_data_same. reflexivity.
  - inversion Hall as [|? ? Hl Hls]; subst. cbn [map Collection.extend]. unfold bind.
    rewrite (append_runs h self l Hl). rewrite IH by exact Hls.
    cbn [Collection._data Collection.set_data]. rewrite <- app_assoc. reflexivity.
Qed.

(** X10. [extend] is not atomic: when the values start with instances of
    the declared kind and go on with a value that is not one, [extend]
    raises the type error for that value and the instances before it have
    been appended; the values after it are not looked at. *)
Theorem extend_stops_at_wrong_kind h self (good : list loc) (bad : pyval)
    (rest : list pyval) :
  Forall (fun l => isinstance_of h (PRef l) (Collection._model self) = true) good ->
  isinstance_of h bad (Collection._model self) = false ->
  Collection.extend h (map PRef good ++ bad :: rest) self
  = (Raise (Collection.not_allowed h bad self),
     Collection.set_data (Collection._data self ++ good) self).
Proof.
  revert self. induction good as [|l good IH]; intros self Hall Hbad.
  - cbn [map app Collection.extend]. unfold bind, Collection.append, get.
    unfold Collection.insert, bind, get, raise.
    rewrite (as_instance_none _ _ _ Hbad). rewrite app_nil_r, set_data_same.
    reflexivity.
  - inversion Hall as [|? ? Hl Hls]; subst. cbn [map app Collection.extend].
    unfold bind. rewrite (append_runs h self l Hl).
    rewrite IH by assumption.
    cbn [Collection._data Collection.set_data]. rewrite <- app_assoc. reflexivity.
Qed.

Lemma extend_stops_at_wrong_kind_witness :
  let h : gmap loc object :=
    {[ 1%positive := blank Classes.Tag; 2%positive := blank Classes.User ]} in
  let tags := Collection.Make "TagCollection" None Classes.Tag []
                [None] [] 0 None (Some 0%Z) 0 in
  Collection.extend h (map PRef [1%positive] ++ PRef 2%positive :: [PRef 1%positive]) tags
  = (Raise (TypeError "Value of type User not allowed in TagCollection."),
     Collection.set_data [1%positive] tags).
Proof.
  intros h tags.
  refine (extend_stops_at_wrong_kind h tags [1%positive] (PRef 2%positive) _ _ _).
  - repeat constructor.
  - reflexivity.
Defined.

End Concatenation.

(** ** Properties of the filters *)

Lemma collection_uri_cases (self : Collection.t) :
  ((1 < length (Collection._filters self))%nat ->
     Collection.uri self false
     = Raise (ValueError "More than 1 filter not allowed by default."))
  /\ (forall key v,
        Collection._filters self = [(key, v)] ->
        Some key ∈ Collection._allowed_filters self ->
        Collection.uri self false
        = Ok (key ++ "/" ++ str v ++ "/" ++ Collection.callback_identifier self ++ ".json")).
Proof.
  unfold Collection.uri. split.
  - intros Hlen. cbn. rewrite bool_decide_eq_true_2 by exact Hlen. reflexivity.
  - intros key v Hf Hin. rewrite Hf. cbn [negb length].
    rewrite (bool_decide_eq_false_2 (1 < 1)%nat) by lia. cbn.
    rewrite decide_True by exact Hin. cbn.
    rewrite bool_decide_eq_true_2.
    + rewrite !append_assoc. reflexivity.
    + rewrite !length_append. simpl. lia.
Qed.

Section Finding.
Local Open Scope list_scope.

Lemma dict_has_set (k k' : string) (v : value) (d : pydict) :
  dict_has k' (dict_set k v d) = if String.eqb k k' then true else dict_has k' d.
Proof.
  unfold dict_has. induction d as [|[k0 v0] d IH]; cbn.
  - rewrite orb_false_r. destruct (String.eqb k k'); reflexivity.
  - destruct (String.eqb_spec k0 k) as [->|Hne]; cbn.
    + destruct (String.eqb k k'); reflexivity.
    + rewrite IH. destruct (String.eqb_spec k k') as [->|Hne'];
        [apply orb_true_r|reflexivity].
Qed.

Lemma dict_set_length (k : string) (v : value) (d : pydict) :
  length (dict_set k v d) = if dict_has k d then length d else S (length d).
Proof.
  unfold dict_has. induction d as [|[k0 v0] d IH]; cbn; [reflexivity|].
  destruct (String.eqb_spec k0 k) as [->|Hne]; cbn; [reflexivity|].
  rewrite IH. destruct (existsb _ d); reflexivity.
Qed.

(** X13. After [add_filter(key, value)] the collection is filtered by
    [key], and by the other keys as before. Adding a key that is new to a
    collection that has a filter already makes [uri] raise the
    invalid-argument error, while setting the key of the only filter
    again replaces its value: [uri] is then
    ["<key>/<value>/<kind>.json"] when the key is allowed. *)
Theorem add_filter_then_uri (self : Collection.t) (key : string) (value : py_value) :
  let self' := (Collection.add_filter key value self).2 in
  Collection.is_filtered_by self' key = true
  /\ (forall other, other ≠ key ->
        Collection.is_filtered_by self' other = Collection.is_filtered_by self other)
  /\ (Collection.is_filtered_by self key = false ->
      Collection._filters self ≠ [] ->
      Collection.uri self' false
      = Raise (ValueError "More than 1 filter not allowed by default."))
  /\ (forall old,
        Collection._filters self = [(key, old)] ->
        Some key ∈ Collection._allowed_filters self ->
        Collection.uri self' false
        = Ok (key +:+ "/" +:+ str value +:+ "/"
              +:+ Collection.callback_identifier self +:+ ".json")).
Proof.
  intros self'. unfold self', Collection.add_filter.
  cbn [snd]. unfold Collection.is_filtered_by at 1 2.
  cbn [Collection._filters Collection.set_filters].
  split; [|split; [|split]].
  - rewrite dict_has_set, String.eqb_refl. reflexivity.
  - intros other Hne. rewrite dict_has_set.
    destruct (String.eqb_spec key other); [congruence|reflexivity].
  - intros Hnew Hne.
    apply (proj1 (collection_uri_cases _)).
    cbn [Collection._filters Collection.set_filters]. rewrite dict_set_length.
    unfold Collection.is_filtered_by in Hnew. rewrite Hnew.
    destruct (Collection._filters self); [contradiction|cbn; lia].
  - intros old Hf Hin.
    rewrite (proj2 (collection_uri_cases _) key value); [reflexivity| |exact Hin].
    cbn [Collection._filters Collection.set_filters]. rewrite Hf. cbn.
    rewrite String.eqb_refl. reflexivity.
Qed.
End Finding.

Lemma add_filter_then_uri_witness :
  let self := Collection.Make "UserCollection" None Classes.User []
                [None; Some "project"; Some "ontology"] [("project", VInt 7)]
                0 None (Some 0%Z) 0 in
  Collection.uri (Collection.add_filter "ontology" (VInt 3) self).2 false
  = Raise (ValueError "More than 1 filter not allowed by default.").
Proof.
  intros self.
  refine (proj1 (proj2 (proj2 (add_filter_then_uri self "ontology" (VInt 3)))) _ _).
  - reflexivity.
  - discriminate.
Defined.

(** ** Properties of the fetching methods of [Collection] *)

Section Pages.
Local Open Scope list_scope.
Context {S : Collection.session}.
Implicit Types (s : Collection.fetching S) (self : Collection.t) (m : Z).

Lemma fetch_runs_on s (append_mode : bool) :
  fetchable (Collection.this_collection s) ->
  Collection._fetch append_mode s
  = (Ok (Collection.get_collection S (Collection.remote_now s)
           (Collection.this_collection s) append_mode).2.2,
     Collection.Fetching
       (fetched S (Collection.remote_now s) (Collection.this_collection s) append_mode)
       (Collection.get_collection S (Collection.remote_now s)
          (Collection.this_collection s) append_mode).1
       (Collection.requests s ++ [(Collection.this_collection s, append_mode)])).
Proof.
  intros Hf. unfold Collection._fetch, fetched.
  replace (_ && _) with false.
  - destruct (Collection.get_collection S _ _ _) as [r [c ok]]. reflexivity.
  - symmetry. destruct Hf as [Hne|Hin].
    + destruct (Collection._filters (Collection.this_collection s));
        [contradiction|reflexivity].
    + rewrite bool_decide_eq_true_2 by exact Hin. apply andb_false_r.
Qed.

Lemma fetch_refused s (append_mode : bool) :
  Collection._filters (Collection.this_collection s) = [] ->
  None ∉ Collection._allowed_filters (Collection.this_collection s) ->
  Collection._fetch append_mode s
  = (Raise (ValueError "This collection cannot be fetched without a filter."), s).
Proof.
  intros Hf Hn. unfold Collection._fetch. rewrite Hf.
  rewrite bool_decide_eq_false_2 by exact Hn. reflexivity.
Qed.

(** X14. [fetch_next_page] sets the offset to [min(total, offset + max)]
    and [fetch_previous_page] to [max(0, offset - max)] before they fetch:
    the transport is called once, with the collection at the new offset,
    when the collection has a filter or can be listed without one; when
    it cannot, the call raises the invalid-argument error, the transport
    is not called, and the offset has moved all the same. *)
Theorem page_moves_offset s m (append_mode : bool) :
  Collection.max (Collection.this_collection s) = Some m ->
  let self := Collection.this_collection s in
  let next := Collection.set_offset
                (Z.min (Collection._total self) (Collection.offset self + m)) self in
  let previous := Collection.set_offset (Z.max 0 (Collection.offset self - m)) self in
  (fetchable self ->
     Collection.requests (Collection.fetch_next_page append_mode s).2
     = Collection.requests s ++ [(next, append_mode)]
     /\ Collection.requests (Collection.fetch_previous_page s).2
        = Collection.requests s ++ [(previous, false)])
  /\ (Collection._filters self = [] -> None ∉ Collection._allowed_filters self ->
      Collection.fetch_next_page append_mode s
      = (Raise (ValueError "This collection cannot be fetched without a filter."),
         Collection.Fetching next (Collection.remote_now s) (Collection.requests s))
      /\ Collection.fetch_previous_page s
         = (Raise (ValueError "This collection cannot be fetched without a filter."),
            Collection.Fetching previous (Collection.remote_now s)
              (Collection.requests s))).
Proof.
  intros Hm. cbv zeta.
  unfold Collection.fetch_next_page, Collection.fetch_previous_page.
  rewrite Hm. unfold bind, Collection.assign. split.
  - intros Hf. rewrite !fetch_runs_on by exact Hf. split; reflexivity.
  - intros Hnf Hna. rewrite !fetch_refused by assumption. split; reflexivity.
Qed.

End Pages.

Lemma page_moves_offset_witness :
  let self := Collection.Make "UserCollection" None Classes.User []
                [Some "project"] [] 25 (Some 2%Z) (Some 10%Z) 20 in
  let s := @Collection.Fetching (empty_pages 25) self tt [] in
  Collection.fetch_next_page true s
  = (Raise (ValueError "This collection cannot be fetched without a filter."),
     @Collection.Fetching (empty_pages 25) (Collection.set_offset 25 self) tt []).
Proof.
  intros self s.
  refine (proj1 (proj2 (@page_moves_offset (empty_pages 25) s 10 true _) _ _)).
  - reflexivity.
  - reflexivity.
  - cbn. rewrite list_elem_of_singleton. discriminate.
Defined.


Section Loop.
Local Open Scope list_scope.
Context {S : Collection.session}.
Implicit Types (s : Collection.fetching S) (self : Collection.t) (m p : Z).

Lemma next_page_runs s m (append_mode : bool) :
  Collection.max (Collection.this_collection s) = Some m ->
  fetchable (Collection.this_collection s) ->
  let moved := Collection.set_offset
                 (Z.min (Collection._total (Collection.this_collection s))
                        (Collection.offset (Collection.this_collection s) + m))
                 (Collection.this_collection s) in
  exists ok r,
    Collection.fetch_next_page append_mode s
    = (Ok ok, Collection.Fetching (fetched S (Collection.remote_now s) moved append_mode)
                r (Collection.requests s ++ [(moved, append_mode)])).
Proof.
  intros Hm Hf moved. unfold Collection.fetch_next_page. rewrite Hm.
  unfold bind, Collection.assign. rewrite fetch_runs_on by exact Hf.
  eexists _, _. reflexivity.
Qed.

Lemma previous_page_runs s m :
  Collection.max (Collection.this_collection s) = Some m ->
  fetchable (Collection.this_collection s) ->
  let moved := Collection.set_offset
                 (Z.max 0 (Collection.offset (Collection.this_collection s) - m))
                 (Collection.this_collection s) in
  exists ok r,
    Collection.fetch_previous_page s
    = (Ok ok, Collection.Fetching (fetched S (Collection.remote_now s) moved false)
                r (Collection.requests s ++ [(moved, false)])).
Proof.
  intros Hm Hf moved. unfold Collection.fetch_previous_page. rewrite Hm.
  unfold bind, Collection.assign. rewrite fetch_runs_on by exact Hf.
  eexists _, _. reflexivity.
Qed.

(** X15. On a transport that leaves the settings of the collection as
    they are, [fetch_next_page] followed by [fetch_previous_page] asks the
    transport for the page at [max(0, min(total, offset + max) - max)]:
    this is the offset the collection started from when that offset is
    not negative and the next page starts within the total, and it is
    before it when the next page was clamped to the total. *)
Theorem next_then_previous s m (append_mode : bool) :
  keeps_settings S ->
  Collection.max (Collection.this_collection s) = Some m ->
  fetchable (Collection.this_collection s) ->
  let self := Collection.this_collection s in
  let total := Collection._total self in
  let start := Collection.offset self in
  exists first second,
    (Collection.requests
       ((Collection.fetch_next_page append_mode ;;; Collection.fetch_previous_page) s).2
     = Collection.requests s ++ [(first, append_mode); (second, false)])
    /\ Collection.offset first = Z.min total (start + m)
    /\ Collection.offset second = Z.max 0 (Z.min total (start + m) - m)
    /\ ((0 <= start)%Z -> (start + m <= total)%Z -> Collection.offset second = start)
    /\ ((0 < start)%Z -> (0 <= m)%Z -> (total < start + m)%Z ->
        (Collection.offset second < start)%Z).
Proof.
  intros Hkeep Hm Hf self total start.
  destruct (next_page_runs s m append_mode Hm Hf) as (ok & r & Hnext).
  set (moved := Collection.set_offset _ _) in Hnext.
  destruct (Hkeep (Collection.remote_now s) moved append_mode) as (K1 & K2 & K3 & K4).
  set (s1 := Collection.Fetching _ r _) in Hnext.
  assert (Hm1 : Collection.max (Collection.this_collection s1) = Some m).
  { cbn. rewrite K1. destruct (Collection.this_collection s). exact Hm. }
  assert (Hf1 : fetchable (Collection.this_collection s1)).
  { unfold fetchable. cbn. rewrite K3, K4.
    destruct (Collection.this_collection s). exact Hf. }
  destruct (previous_page_runs s1 m Hm1 Hf1) as (ok' & r' & Hprev).
  eexists _, _. unfold bind. rewrite Hnext, Hprev. unfold s1.
  cbn [snd Collection.requests Collection.this_collection].
  rewrite <- app_assoc. cbn [app]. split; [reflexivity|].
  cbn [Collection.offset Collection.set_offset].
  rewrite K2. unfold moved. cbn [Collection.offset Collection.set_offset].
  fold self. fold total start.
  split; [reflexivity|]. split; [reflexivity|]. split; intros; lia.
Qed.
End Loop.

Lemma next_then_previous_witness :
  let self := Collection.Make "UserCollection" None Classes.User []
                [None; Some "project"] [] 25 (Some 2%Z) (Some 10%Z) 10 in
  let s := @Collection.Fetching (empty_pages 25) self tt [] in
  exists first second,
    (Collection.requests
       ((Collection.fetch_next_page true ;;; Collection.fetch_previous_page) s).2
     = Collection.requests s ++ [(first, true); (second, false)])%list
    /\ Collection.offset first = Z.min 25 (10 + 10)
    /\ Collection.offset second = Z.max 0 (Z.min 25 (10 + 10) - 10)
    /\ ((0 <= 10)%Z -> (10 + 10 <= 25)%Z -> Collection.offset second = 10%Z)
    /\ ((0 < 10)%Z -> (0 <= 10)%Z -> (25 < 10 + 10)%Z ->
        (Collection.offset second < 10)%Z).
Proof.
  intros self s.
  refine (@next_then_previous (empty_pages 25) s 10 true _ _ _).
  - intros r c a. destruct c. repeat split; reflexivity.
  - reflexivity.
  - right. cbn. left.
Defined.

Section PagedFetch.
Local Open Scope list_scope.
Context {S : Collection.session}.
Implicit Types (s : Collection.fetching S) (m p : Z).

Lemma paging_turn s m (pages : option Z) :
  keeps_settings S -> reports_pages S m pages ->
  Collection.max (Collection.this_collection s) = Some m ->
  fetchable (Collection.this_collection s) ->
  exists ok s1 q,
    Collection.fetch_next_page true s = (Ok ok, s1)
    /\ paging s1 m pages
    /\ Collection.requests s1 = Collection.requests s ++ [(q, true)].
Proof.
  intros Hkeep Hrep Hm Hf.
  destruct (next_page_runs s m true Hm Hf) as (ok & r & Hnext).
  set (moved := Collection.set_offset _ _) in Hnext.
  destruct (Hkeep (Collection.remote_now s) moved true) as (K1 & K2 & K3 & K4).
  assert (Hmm : Collection.max moved = Some m)
    by (unfold moved; destruct (Collection.this_collection s); exact Hm).
  eexists _, _, _. split; [exact Hnext|]. split; [|reflexivity].
  unfold paging, fetchable. cbn [Collection.this_collection].
  rewrite K1, K3, K4, (Hrep _ _ _ Hmm).
  split; [exact Hmm|]. split; [|reflexivity].
  unfold moved. destruct (Collection.this_collection s). exact Hf.
Qed.

Lemma pages_remaining (k : nat) :
  forall s m p (n : Z) (fuel : nat),
    keeps_settings S -> reports_pages S m (Some p) ->
    paging s m (Some p) ->
    (0 < p)%Z -> Z.of_nat k = (p - n)%Z -> (k <= fuel)%nat ->
    exists s' extra,
      Collection.fetch_pages fuel n s = (Ok true, s')
      /\ Collection.requests s' = Collection.requests s ++ extra
      /\ length extra = k
      /\ Forall (fun q => q.2 = true) extra.
Proof.
  induction k as [|k IH]; intros s m p n fuel Hkeep Hrep (Hm & Hf & Hp) Hpos Hk Hfuel.
  - exists s, []. destruct fuel; cbn [Collection.fetch_pages];
      unfold Collection.fetch_continues; rewrite Hp;
      replace (p =? 0)%Z with false by lia; replace (n <? p)%Z with false by lia;
      cbn; rewrite app_nil_r; repeat split; constructor.
  - destruct fuel as [|fuel]; [lia|]. cbn [Collection.fetch_pages].
    unfold Collection.fetch_continues. rewrite Hp.
    replace (n <? p)%Z with true by lia. rewrite orb_true_r. unfold bind.
    destruct (paging_turn s m (Some p) Hkeep Hrep Hm Hf)
      as (ok & s1 & q & Hturn & Hpaging & Hreq).
    rewrite Hturn.
    destruct (IH s1 m p (n + 1)%Z fuel Hkeep Hrep Hpaging Hpos ltac:(lia) ltac:(lia))
      as (s' & extra & Hrun & Hreqs & Hlen & Hall).
    exists s', ((q, true) :: extra). split; [exact Hrun|].
    rewrite Hreqs, Hreq, <- app_assoc. cbn.
    split; [reflexivity|]. split; [lia|]. constructor; [reflexivity|exact Hall].
Qed.

(** X16. [fetch(max)] on a transport that leaves the settings of the
    collection as they are and reports [p > 0] pages at each call makes
    exactly [p] calls of the transport, all in append mode, and then
    returns the collection: the first call is made when the collection has
    no number of pages yet, or one that is not negative. *)
Theorem fetch_calls_per_page s m p (fuel : nat) :
  keeps_settings S -> reports_pages S m (Some p) ->
  (0 < p)%Z -> m ≠ 0%Z ->
  fetchable (Collection.this_collection s) ->
  Collection.fetch_continues (Collection.this_collection s) 0 = true ->
  (Z.to_nat p <= fuel)%nat ->
  exists s' extra,
    Collection.fetch fuel (Some m) s = (Ok (Some true), s')
    /\ Collection.requests s' = Collection.requests s ++ extra
    /\ length extra = Z.to_nat p
    /\ Forall (fun q => q.2 = true) extra.
Proof.
  intros Hkeep Hrep Hpos Hm Hf Hfirst Hfuel.
  unfold Collection.fetch. replace (m =? 0)%Z with false by lia.
  unfold bind, Collection.assign.
  set (s0 := Collection.Fetching _ _ _).
  assert (Hm0 : Collection.max (Collection.this_collection s0) = Some m)
    by (cbn; destruct (Collection.this_collection s); reflexivity).
  assert (Hf0 : fetchable (Collection.this_collection s0))
    by (unfold fetchable; cbn; destruct (Collection.this_collection s); exact Hf).
  assert (Hc0 : Collection.fetch_continues (Collection.this_collection s0) 0 = true)
    by (cbn; destruct (Collection.this_collection s); exact Hfirst).
  destruct fuel as [|fuel]; [lia|]. cbn [Collection.fetch_pages]. rewrite Hc0.
  unfold bind.
  destruct (paging_turn s0 m (Some p) Hkeep Hrep Hm0 Hf0)
    as (ok & s1 & q & Hturn & Hpaging & Hreq).
  rewrite Hturn.
  destruct (pages_remaining (Z.to_nat p - 1) s1 m p (0 + 1)%Z fuel Hkeep Hrep Hpaging
              Hpos ltac:(lia) ltac:(lia))
    as (s' & extra & Hrun & Hreqs & Hlen & Hall).
  rewrite Hrun. exists s', ((q, true) :: extra). split; [reflexivity|].
  rewrite Hreqs, Hreq, <- app_assoc. cbn.
  split; [reflexivity|]. split; [lia|]. constructor; [reflexivity|exact Hall].
Qed.

Lemma pages_never_reached (fuel : nat) :
  forall s m (pages : option Z) (n : Z),
    keeps_settings S -> reports_pages S m pages ->
    pages = None \/ pages = Some 0%Z ->
    Collection.max (Collection.this_collection s) = Some m ->
    fetchable (Collection.this_collection s) ->
    Collection.fetch_continues (Collection.this_collection s) n = true ->
    exists s',
      Collection.fetch_pages fuel n s = (Ok false, s')
      /\ length (Collection.requests s') = (length (Collection.requests s) + fuel)%nat.
Proof.
  induction fuel as [|fuel IH]; intros s m pages n Hkeep Hrep Hpages Hm Hf Hc.
  - exists s. cbn [Collection.fetch_pages]. rewrite Hc. split; [reflexivity|lia].
  - cbn [Collection.fetch_pages]. rewrite Hc. unfold bind.
    destruct (paging_turn s m pages Hkeep Hrep Hm Hf)
      as (ok & s1 & q & Hturn & (Hm1 & Hf1 & Hp1) & Hreq).
    rewrite Hturn.
    assert (Hc1 : Collection.fetch_continues (Collection.this_collection s1) (n + 1)
                  = true).
    { unfold Collection.fetch_continues. rewrite Hp1.
      destruct Hpages as [-> | ->]; reflexivity. }
    destruct (IH s1 m pages (n + 1)%Z Hkeep Hrep Hpages Hm1 Hf1 Hc1) as (s' & Hrun & Hlen).
    exists s'. split; [exact Hrun|]. rewrite Hlen, Hreq, length_app. cbn. lia.
Qed.

(** X17. [fetch(max)] does not end on a transport that leaves the settings
    of the collection as they are and reports zero pages, or none, at each
    call: whatever the number of turns allowed, the loop has not ended
    after them, and has called the transport at each of them. *)
Theorem fetch_never_ends s m (pages : option Z) (fuel : nat) :
  keeps_settings S -> reports_pages S m pages ->
  pages = None \/ pages = Some 0%Z ->
  m ≠ 0%Z ->
  fetchable (Collection.this_collection s) ->
  Collection.fetch_continues (Collection.this_collection s) 0 = true ->
  exists s',
    Collection.fetch fuel (Some m) s = (Ok None, s')
    /\ length (Collection.requests s') = (length (Collection.requests s) + fuel)%nat.
Proof.
  intros Hkeep Hrep Hpages Hm Hf Hfirst.
  unfold Collection.fetch. replace (m =? 0)%Z with false by lia.
  unfold bind, Collection.assign.
  set (s0 := Collection.Fetching _ _ _).
  assert (Hm0 : Collection.max (Collection.this_collection s0) = Some m)
    by (cbn; destruct (Collection.this_collection s); reflexivity).
  assert (Hf0 : fetchable (Collection.this_collection s0))
    by (unfold fetchable; cbn; destruct (Collection.this_collection s); exact Hf).
  assert (Hc0 : Collection.fetch_continues (Collection.this_collection s0) 0 = true)
    by (cbn; destruct (Collection.this_collection s); exact Hfirst).
  destruct (pages_never_reached fuel s0 m pages 0 Hkeep Hrep Hpages Hm0 Hf0 Hc0)
    as (s' & Hrun & Hlen).
  rewrite Hrun. exists s'. split; [reflexivity|exact Hlen].
Qed.
End PagedFetch.

Lemma empty_pages_keeps_settings (total : Z) : keeps_settings (empty_pages total).
Proof. intros r c a. destruct c. repeat split; reflexivity. Qed.

Lemma empty_pages_reports (total m : Z) :
  m ≠ 0%Z -> reports_pages (empty_pages total) m (Some (total `div` m)%Z).
Proof.
  intros Hm r c a Hmax. unfold fetched. cbn. rewrite Hmax.
  replace (m =? 0)%Z with false by lia. reflexivity.
Qed.

Lemma fetch_calls_per_page_witness :
  let self := Collection.__init__ "UserCollection" None Classes.User
                (Some [("project", VInt 7)]) (Some 0%Z) 0 in
  let s := @Collection.Fetching (empty_pages 25) self tt [] in
  exists s' extra,
    Collection.fetch 5 (Some 10%Z) s = (Ok (Some true), s')
    /\ Collection.requests s' = (Collection.requests s ++ extra)%list
    /\ length extra = Z.to_nat 2
    /\ Forall (fun q => q.2 = true) extra.
Proof.
  intros self s.
  refine (@fetch_calls_per_page (empty_pages 25) s 10 2 5 _ _ _ _ _ _ _).
  - apply empty_pages_keeps_settings.
  - apply (empty_pages_reports 25 10). discriminate.
  - lia.
  - discriminate.
  - left. discriminate.
  - reflexivity.
  - cbn. lia.
Defined.

Lemma fetch_never_ends_witness :
  let self := Collection.__init__ "UserCollection" None Classes.User
                (Some [("project", VInt 7)]) (Some 0%Z) 0 in
  let s := @Collection.Fetching (empty_pages 5) self tt [] in
  exists s',
    Collection.fetch 20 (Some 10%Z) s = (Ok None, s')
    /\ length (Collection.requests s') = (length (Collection.requests s) + 20)%nat.
Proof.
  intros self s.
  refine (@fetch_never_ends (empty_pages 5) s 10 (Some 0%Z) 20 _ _ _ _ _ _).
  - apply empty_pages_keeps_settings.
  - apply (empty_pages_reports 5 10). discriminate.
  - right. reflexivity.
  - discriminate.
  - left. discriminate.
  - reflexivity.
Defined.

(** ** Properties of [Collection.populate] *)

Section Elements.
Local Open Scope list_scope.
Context {T : Transport}.

Lemma assign_fields_class (c : class) (o : object) :
  __class__ (assign_fields c o) = __class__ o.
Proof.
  unfold assign_fields. generalize (fields c). intros l. revert o.
  induction l as [|kv l IH]; intros o; [reflexivity|].
  cbn [fold_left]. rewrite IH. reflexivity.
Qed.

Lemma fresh_unused (w : world T) : heap w !! fresh (dom (heap w)) = None.
Proof. apply not_elem_of_dom, is_fresh. Qed.

(** The element that [self._model().populate(instance)] builds. *)
Lemma element_runs (c : class) (instance : pydict) (w : world T) :
  derives_from "DomainModel" c = false ->
  Collection.element c instance w
  = (match (Model.populate instance (assign_fields c (initialized (blank c)))).1 with
     | Ok _ => Ok (fresh (dom (heap w)))
     | Raise e => Raise e
     end,
     World (<[fresh (dom (heap w)) :=
               (Model.populate instance (assign_fields c (initialized (blank c)))).2]>
              (heap w))
           (remote w) (calls w)).
Proof.
  intros Hc. unfold Collection.element, bind. rewrite new_runs.
  unfold construct. rewrite Hc. unfold bind. rewrite init_runs, write_in.
  rewrite on_object_in.
  destruct (Model.populate instance _) as [[[]|e] o']; reflexivity.
Qed.

Lemma element_needs_owner (c : class) (instance : pydict) (w : world T) :
  derives_from "DomainModel" c = true ->
  Collection.element c instance w
  = (Raise (TypeError (__name__ c
                       ++ ".__init__() missing 1 required positional argument: 'object'")),
     World (<[fresh (dom (heap w)) := blank c]> (heap w)) (remote w) (calls w)).
Proof.
  intros Hc. unfold Collection.element, bind. rewrite new_runs.
  unfold construct. rewrite Hc. reflexivity.
Qed.

Lemma elements_built (c : class) (items : list pydict) :
  buildable c items = true ->
  forall w : world T,
    exists data w',
      map_M (Collection.element c) items w = (Ok data, w')
      /\ Forall2 (fun l instance =>
                    heap w' !! l
                    = Some (Model.populate instance
                              (assign_fields c (initialized (blank c)))).2)
                 data items
      /\ heap w ⊆ heap w'
      /\ Forall (fun l => heap w !! l = None) data
      /\ NoDup data
      /\ calls w' = calls w.
Proof.
  induction items as [|instance items IH]; intros Hb w.
  - exists [], w. cbn [map_M ret].
    split; [reflexivity|]. split; [constructor|]. split; [reflexivity|].
    split; [constructor|]. split; [constructor|reflexivity].
  - change (buildable c (instance :: items))
      with (negb (derives_from "DomainModel" c) && storable c instance
            && buildable c items) in Hb.
    apply andb_prop in Hb as [Hitem Hrest].
    apply andb_prop in Hitem as [Hc Hst]. apply negb_true_iff in Hc.
    cbn [map_M]. unfold bind. rewrite element_runs by exact Hc.
    rewrite populate_stores by (rewrite assign_fields_class; exact Hst).
    cbn [fst snd].
    set (l := fresh (dom (heap w))).
    set (w1 := World _ _ _).
    destruct (IH Hrest w1) as (data & w' & Hrun & Hall & Hsub & Hfresh & Hnd & Hcalls).
    rewrite Hrun. exists (l :: data), w'. cbn [ret].
    pose proof (fresh_unused w) as Hl. fold l in Hl.
    assert (Hsub1 : heap w ⊆ heap w1) by (apply insert_subseteq; exact Hl).
    split; [reflexivity|]. split; [|split; [|split; [|split]]].
    + constructor; [|exact Hall].
      rewrite populate_stores by (rewrite assign_fields_class; exact Hst).
      apply (lookup_weaken (heap w1)); [apply lookup_insert_eq|exact Hsub].
    + etransitivity; eassumption.
    + constructor; [exact Hl|].
      eapply Forall_impl; [exact Hfresh|]. intros l' Hl'. cbn beta in Hl'.
      destruct (heap w !! l') as [x|] eqn:Hx; [|reflexivity].
      rewrite (lookup_weaken _ _ _ _ Hx Hsub1) in Hl'. discriminate.
    + constructor; [|exact Hnd]. intros Hin.
      rewrite Forall_forall in Hfresh. specialize (Hfresh l Hin).
      unfold w1 in Hfresh. cbn in Hfresh. rewrite lookup_insert_eq in Hfresh.
      discriminate.
    + rewrite Hcalls. reflexivity.
Qed.

Lemma elements_refused (c : class) (items : list pydict) :
  buildable c items = false ->
  forall w : world T,
    exists e w',
      map_M (Collection.element c) items w = (Raise e, w') /\ calls w' = calls w.
Proof.
  induction items as [|instance items IH]; intros Hb w; [discriminate|].
  change (buildable c (instance :: items))
    with (negb (derives_from "DomainModel" c) && storable c instance
          && buildable c items) in Hb.
  cbn [map_M]. unfold bind.
  destruct (derives_from "DomainModel" c) eqn:Hc.
  - rewrite element_needs_owner by exact Hc. eexists _, _. split; reflexivity.
  - rewrite element_runs by exact Hc. cbn [negb andb] in Hb.
    destruct (storable c instance) eqn:Hst.
    + rewrite populate_stores by (rewrite assign_fields_class; exact Hst).
      cbn [fst snd]. cbn [andb] in Hb.
      destruct (IH Hb (World (<[fresh (dom (heap w)) :=
                                  stored (assign_fields c (initialized (blank c)))
                                    instance]> (heap w)) (remote w) (calls w)))
        as (e & w' & Hrun & Hcalls).
      rewrite Hrun. exists e, w'. split; [reflexivity|exact Hcalls].
    + destruct (populate_refuses instance (assign_fields c (initialized (blank c))))
        as [name Hr]; [rewrite assign_fields_class; exact Hst|].
      rewrite Hr. eexists _, _. split; reflexivity.
Qed.

(** What [populate] leaves when the elements of the page can be built,
    and when they cannot. *)
Lemma populate_runs (self : Collection.t) (w : world T)
    (attributes : envelope) (append_mode : bool) :
  buildable (Collection._model self) (env_collection attributes) = true ->
  exists data w',
    Collection.populate attributes append_mode (self, w) =
    (Ok tt,
     (Collection.set_total_pages
        (Some (match Collection.max self with
               | None => 1
               | Some m => if m =? 0 then 1 else env_size attributes `div` m
               end)%Z)
        (Collection.set_total (env_size attributes)
           (Collection.set_data
              (if append_mode then Collection._data self ++ data else data) self)),
      w'))
    /\ map_M (Collection.element (Collection._model self)) (env_collection attributes) w
       = (Ok data, w').
Proof.
  intros Hb.
  destruct (elements_built _ _ Hb w) as (data & w' & Hd & _).
  exists data, w'. split; [|exact Hd].
  unfold Collection.populate, bind, this, on_store.
  cbn [fst snd]. rewrite Hd. cbn. destruct append_mode; cbn;
    destruct (Collection.max self) as [m|]; cbn; try reflexivity;
    destruct (m =? 0)%Z; reflexivity.
Qed.

Lemma populate_refused (self : Collection.t) (w : world T)
    (attributes : envelope) (append_mode : bool) :
  buildable (Collection._model self) (env_collection attributes) = false ->
  exists e w',
    Collection.populate attributes append_mode (self, w) = (Raise e, (self, w'))
    /\ calls w' = calls w.
Proof.
  intros Hb.
  destruct (elements_refused _ _ Hb w) as (e & w' & Hd & Hcalls).
  exists e, w'. split; [|exact Hcalls].
  unfold Collection.populate, bind, this, on_store.
  cbn [fst snd]. rewrite Hd. reflexivity.
Qed.
End Elements.

(** C3. [populate] of a collection from a page envelope of size [T]
    returns when the elements of the page can be built (the constructor of
    the kind takes no owner, and no item of an element is stored under a
    property of the kind): it then stores [T] as the total and, as the
    number of pages, [T // max] when [max] is an integer other than zero,
    and one page when [max] is unset or zero; a total of 25 with
    [max = 10] gives 2 pages. When an element cannot be built, [populate]
    raises and the collection is as it was. *)
Theorem populate_total_pages :
  (forall (T : Transport) (self : Collection.t) (w : world T)
          (attributes : envelope) (append_mode : bool),
      let populated := Collection.populate attributes append_mode (self, w) in
      (buildable (Collection._model self) (env_collection attributes) = true ->
       populated.1 = Ok tt
       /\ Collection._total populated.2.1 = env_size attributes
       /\ Collection._total_pages populated.2.1 =
            Some (match Collection.max self with
                  | None => 1
                  | Some m => if m =? 0 then 1 else env_size attributes `div` m
                  end)%Z)
      /\ (buildable (Collection._model self) (env_collection attributes) = false ->
          (exists e, populated.1 = Raise e) /\ populated.2.1 = self))
  /\ (forall (T : Transport) (w : world T) type_name callback model filters offset
             (items : list pydict) (append_mode : bool),
        buildable model items = true ->
        let populated :=
          Collection.populate (Envelope 25 items) append_mode
            (Collection.__init__ type_name callback model filters (Some 10%Z) offset, w) in
        populated.1 = Ok tt
        /\ Collection._total populated.2.1 = 25%Z
        /\ Collection._total_pages populated.2.1 = Some 2%Z).
Proof.
  split.
  - intros T self w attributes append_mode populated. split; intros Hb.
    + destruct (populate_runs self w attributes append_mode Hb) as (data & w' & H & _).
      unfold populated. rewrite H. repeat split; reflexivity.
    + destruct (populate_refused self w attributes append_mode Hb) as (e & w' & H & _).
      unfold populated. rewrite H. split; [exists e|]; reflexivity.
  - intros T w type_name callback model filters offset items append_mode Hb populated.
    destruct (populate_runs
                (Collection.__init__ type_name callback model filters (Some 10%Z) offset)
                w (Envelope 25 items) append_mode Hb) as (data & w' & H & _).
    unfold populated. rewrite H. repeat split; reflexivity.
Qed.

Lemma populate_total_pages_witness :
  let self := Collection.__init__ "UserCollection" None Classes.User None (Some 10%Z) 0 in
  let populated :=
    Collection.populate (Envelope 25 [[("username", VStr "jdoe"); ("id", VInt 3)]])
      false (self, empty_world) in
  populated.1 = Ok tt
  /\ Collection._total populated.2.1 = 25%Z
  /\ Collection._total_pages populated.2.1 = Some 2%Z.
Proof.
  intros self.
  refine (proj2 populate_total_pages offline empty_world "UserCollection" None
            Classes.User None 0%Z [[("username", VStr "jdoe"); ("id", VInt 3)]] false _).
  reflexivity.
Defined.

(** X18. After a [populate] that returns, a collection of page size
    [max > 0] and total [T >= 0] holds a number of pages [p] with
    [p * max <= T < p * max + max]: the pages counted cover the total but
    for a last page that is not full. [p] is zero exactly when the total
    is smaller than the page size, and the guard of the paged loop then
    holds whatever the number of pages fetched. *)
Theorem populate_counts_full_pages
    (T : Transport) (self : Collection.t) (w : world T)
    (attributes : envelope) (append_mode : bool) (m : Z) :
  buildable (Collection._model self) (env_collection attributes) = true ->
  Collection.max self = Some m ->
  (0 < m)%Z -> (0 <= env_size attributes)%Z ->
  (Collection.populate attributes append_mode (self, w)).1 = Ok tt
  /\ exists p,
       Collection._total_pages (Collection.populate attributes append_mode (self, w)).2.1
       = Some p
       /\ (p * m <= env_size attributes < p * m + m)%Z
       /\ (p = 0%Z <-> (env_size attributes < m)%Z)
       /\ ((env_size attributes < m)%Z ->
           forall n_pages,
             Collection.fetch_continues
               (Collection.populate attributes append_mode (self, w)).2.1 n_pages = true).
Proof.
  intros Hb Hm Hpos Htotal.
  destruct (populate_runs self w attributes append_mode Hb) as (data & w' & Hrun & _).
  rewrite Hrun. cbn [fst snd]. rewrite Hm. split; [reflexivity|].
  replace (m =? 0)%Z with false by lia.
  cbn [Collection._total_pages Collection.set_total_pages].
  exists (env_size attributes `div` m)%Z.
  pose proof (Z.div_mod (env_size attributes) m ltac:(lia)) as Hdm.
  pose proof (Z.mod_pos_bound (env_size attributes) m Hpos) as Hmod.
  split; [reflexivity|]. split; [nia|]. split; [split; intros; nia|].
  intros Hsmall n. unfold Collection.fetch_continues.
  cbn [Collection._total_pages Collection.set_total_pages].
  rewrite Z.div_small by lia. reflexivity.
Qed.

Lemma populate_counts_full_pages_witness :
  let self := Collection.__init__ "UserCollection" None Classes.User None (Some 10%Z) 0 in
  let page := Envelope 25 [[("username", VStr "jdoe")]] in
  (Collection.populate page false (self, empty_world)).1 = Ok tt
  /\ exists p,
       Collection._total_pages (Collection.populate page false (self, empty_world)).2.1
       = Some p
       /\ (p * 10 <= env_size page < p * 10 + 10)%Z
       /\ (p = 0%Z <-> (env_size page < 10)%Z)
       /\ ((env_size page < 10)%Z ->
           forall n_pages,
             Collection.fetch_continues
               (Collection.populate page false (self, empty_world)).2.1 n_pages
             = true).
Proof.
  intros self page.
  refine (populate_counts_full_pages offline self empty_world page false 10 _ _ _ _).
  - reflexivity.
  - reflexivity.
  - lia.
  - cbn. lia.
Defined.

(** X19. When the elements of a page can be built, [populate] builds one
    new object for each item of the page, in the order of the page: each
    is the object that the constructor of the kind leaves, populated with
    its item; the new objects are distinct from one another and from the
    objects that existed, which are unchanged; the elements replace the
    sequence, or are added after it in append mode; no transport call is
    made. When an element cannot be built (the constructor of the kind
    takes an owner, or an item is stored under a property of the kind),
    [populate] raises, the sequence is as it was and no transport call is
    made. *)
Theorem populate_builds_elements (T : Transport) (self : Collection.t) (w : world T)
    (attributes : envelope) (append_mode : bool) :
  (buildable (Collection._model self) (env_collection attributes) = true ->
   exists data self' w',
     Collection.populate attributes append_mode (self, w) = (Ok tt, (self', w'))
     /\ Collection._data self'
        = (if append_mode then Collection._data self ++ data else data)%list
     /\ Forall2 (fun l instance =>
                   heap w' !! l
                   = Some (Model.populate instance
                             (assign_fields (Collection._model self)
                                (initialized (blank (Collection._model self))))).2)
                data (env_collection attributes)
     /\ NoDup data
     /\ Forall (fun l => heap w !! l = None) data
     /\ (forall l o, heap w !! l = Some o -> heap w' !! l = Some o)
     /\ calls w' = calls w)
  /\ (buildable (Collection._model self) (env_collection attributes) = false ->
      exists e w',
        Collection.populate attributes append_mode (self, w) = (Raise e, (self, w'))
        /\ calls w' = calls w).
Proof.
  split; [|apply populate_refused].
  intros Hb.
  destruct (populate_runs self w attributes append_mode Hb) as (data & w' & Hrun & Hd).
  destruct (elements_built _ _ Hb w)
    as (data' & w'' & Hd' & Hall & Hsub & Hfresh & Hnd & Hcalls).
  rewrite Hd in Hd'. injection Hd' as <- <-.
  exists data. eexists _, w'. split; [exact Hrun|].
  split; [destruct append_mode; reflexivity|].
  split; [exact Hall|]. split; [exact Hnd|]. split; [exact Hfresh|].
  split; [|exact Hcalls].
  intros l o Hl. exact (lookup_weaken _ _ _ _ Hl Hsub).
Qed.

Lemma populate_builds_elements_witness :
  let self := Collection.__init__ "TagCollection" None Classes.Tag None (Some 0%Z) 0 in
  let page := Envelope 2 [[("name", VStr "tumour")]; [("name", VStr "stroma")]] in
  exists data self' w',
    Collection.populate page false (self, empty_world) = (Ok tt, (self', w'))
    /\ Collection._data self' = data
    /\ Forall2 (fun l instance =>
                  heap w' !! l
                  = Some (Model.populate instance
                            (assign_fields Classes.Tag (initialized (blank Classes.Tag)))).2)
               data (env_collection page)
    /\ NoDup data
    /\ Forall (fun l => heap empty_world !! l = None) data
    /\ (forall l o, heap empty_world !! l = Some o -> heap w' !! l = Some o)
    /\ calls w' = calls empty_world.
Proof.
  intros self page.
  refine (proj1 (populate_builds_elements offline self empty_world page false) _).
  reflexivity.
Defined.

(** ** [UserGroup]: the composite key, and [save] without [update] *)

Section UserGroupRuns.
Context {T : Transport}.

Lemma user_group_fetch_runs self (id_user id_group user group : value) h r c o :
  __dict__ o !! "user" = Some user ->
  __dict__ o !! "group" = Some group ->
  UserGroup.fetch self id_user id_group (World (T := T) (<[self := o]> h) r c)
  = if is_None user && is_None id_user then
      (Raise (ValueError "Cannot fetch a model with no user ID."),
       World (<[self := setattr o "id" (VInt (-1))]> h) r c)
    else if is_None group && is_None id_group then
      (Raise (ValueError "Cannot fetch a model with no group ID."),
       World (<[self := setattr o "id" (VInt (-1))]> h) r c)
    else
      transport GET_MODEL self
        (World (<[self := composite_key "user" id_user "group" id_group o]> h) r c).
Proof.
  intros Hu Hg. unfold UserGroup.fetch, bind. rewrite write_in, read_in.
  unfold attr at 1. cbn [setattr __dict__].
  rewrite lookup_insert_ne by discriminate. rewrite Hu.
  destruct (is_None user && is_None id_user); [reflexivity|].
  rewrite read_in. unfold attr at 1. cbn [setattr __dict__].
  rewrite lookup_insert_ne by discriminate. rewrite Hg.
  destruct (is_None group && is_None id_group); [reflexivity|].
  unfold composite_key.
  destruct (is_None id_user); cbn [negb]; [unfold ret at 1|rewrite write_in];
    (destruct (is_None id_group); cbn [negb]; [unfold ret at 1|rewrite write_in]);
    reflexivity.
Qed.

Lemma user_group_save_runs self (sid : value) h r c o :
  __dict__ o !! "id" = Some sid ->
  UserGroup.save self (World (T := T) (<[self := o]> h) r c)
  = if is_None sid then transport POST_MODEL self (World (<[self := o]> h) r c)
    else (Raise (NotImplementedError "Cannot update a user-group."),
          World (<[self := o]> h) r c).
Proof.
  intros Hid. unfold UserGroup.save, bind. rewrite read_in. unfold attr. rewrite Hid.
  destruct (is_None sid); reflexivity.
Qed.
End UserGroupRuns.

Section UserGroupProperties.
Context {T : Transport}.
Variables (w : world T) (self : loc) (o : object) (user group : value).
Hypothesis Hself : heap w !! self = Some o.
Hypothesis Huser : __dict__ o !! "user" = Some user.
Hypothesis Hgroup : __dict__ o !! "group" = Some group.

(** X20. When [UserGroup.fetch] has a user and a group identifier, each
    given in the call or held by the entity, it makes one transport call,
    a get, with the entity of identifier [-1] that holds the identifiers of
    the call where they are given; the resource of that entity is
    [user/<user>/group/<group>.json], also for an entity that was new
    before the call. *)
Theorem user_group_fetch_address (id_user id_group : value) :
  is_None user && is_None id_user = false ->
  is_None group && is_None id_group = false ->
  let e := composite_key "user" id_user "group" id_group o in
  calls (UserGroup.fetch self id_user id_group w).2
  = (calls w ++ [Request GET_MODEL self e])%list
  /\ attr e "id" = Ok (VInt (-1))
  /\ UserGroup.uri e
     = Ok ("user/" ++ str (if is_None id_user then user else id_user)
           ++ "/group/" ++ str (if is_None id_group then group else id_group)
           ++ ".json").
Proof.
  intros Hu Hg e. destruct w as [h r c]; cbn [heap calls] in *.
  rewrite <- (insert_id h self o Hself).
  rewrite (user_group_fetch_runs _ _ _ user group) by assumption.
  rewrite Hu, Hg, transport_in. cbn [snd calls]. split; [reflexivity|].
  unfold e, composite_key, UserGroup.uri, Model.is_new, attr, setattr.
  destruct (is_None id_user), (is_None id_group); cbn [__dict__];
    repeat (rewrite ?lookup_insert_eq; rewrite ?lookup_insert_ne by discriminate);
    rewrite ?Huser, ?Hgroup; cbn; split; reflexivity.
Qed.

(** X21. [save] of a [UserGroup] that is not new raises the
    not-implemented error of its [update] and leaves the store, the remote
    state and the request log as they were; [save] of a new one makes one
    transport call, a post, with the entity, whose resource is
    [user/<user>/group.json]. *)
Theorem user_group_save (sid : value) :
  __dict__ o !! "id" = Some sid ->
  if is_None sid then
    calls (UserGroup.save self w).2 = (calls w ++ [Request POST_MODEL self o])%list
    /\ UserGroup.uri o = Ok ("user/" ++ str user ++ "/group.json")
  else
    UserGroup.save self w
    = (Raise (NotImplementedError "Cannot update a user-group."), w).
Proof.
  intros Hid. destruct w as [h r c]; cbn [heap calls] in *.
  destruct (is_None sid) eqn:Hnew.
  - rewrite <- (insert_id h self o Hself).
    rewrite (user_group_save_runs _ sid) by exact Hid.
    rewrite Hnew, transport_in. cbn [snd calls]. split; [reflexivity|].
    unfold UserGroup.uri, Model.is_new, attr. rewrite Hid, Huser. cbn.
    rewrite Hnew. reflexivity.
  - rewrite <- (insert_id h self o Hself).
    rewrite (user_group_save_runs _ sid) by exact Hid.
    rewrite Hnew. reflexivity.
Qed.

(** X22. A [UserGroup.fetch] that fails for want of an identifier makes
    the entity unsaveable: the [save] that follows raises the
    not-implemented error, and neither call reaches the transport,
    whatever identifier the entity had before, also when it was new. *)
Theorem user_group_failed_fetch_blocks_save (id_user id_group : value) :
  (is_None user && is_None id_user) || (is_None group && is_None id_group) = true ->
  let failed := UserGroup.fetch self id_user id_group w in
  (exists message, failed.1 = Raise (ValueError message))
  /\ UserGroup.save self failed.2
     = (Raise (NotImplementedError "Cannot update a user-group."), failed.2)
  /\ calls failed.2 = calls w.
Proof.
  intros Hmissing failed.
  assert (Hfailed : exists message,
             failed = (Raise (ValueError message),
                       World (<[self := setattr o "id" (VInt (-1))]> (heap w))
                             (remote w) (calls w))).
  { unfold failed. destruct w as [h r c]; cbn [heap calls remote] in *.
    replace (World h r c) with (World (T := T) (<[self := o]> h) r c)
      by (rewrite (insert_id h self o Hself); reflexivity).
    rewrite (user_group_fetch_runs _ _ _ user group) by assumption.
    destruct (is_None user && is_None id_user); [eexists; reflexivity|].
    cbn [orb] in Hmissing. rewrite Hmissing. eexists; reflexivity. }
  destruct Hfailed as [message Hfailed]. rewrite Hfailed. cbn [fst snd calls].
  split; [exists message; reflexivity|]. split; [|reflexivity].
  rewrite (user_group_save_runs _ (VInt (-1))).
  - reflexivity.
  - cbn. apply lookup_insert_eq.
Qed.
End UserGroupProperties.

Lemma user_group_fetch_address_witness :
  let o := setattr (setattr (initialized (blank Classes.UserGroup)) "user" (VInt 3))
             "group" VNone in
  let w := @World offline {[ 1%positive := o ]} tt [] in
  let e := composite_key "user" VNone "group" (VInt 5) o in
  calls (UserGroup.fetch 1%positive VNone (VInt 5) w).2
  = [Request GET_MODEL 1%positive e]
  /\ attr e "id" = Ok (VInt (-1))
  /\ UserGroup.uri e = Ok "user/3/group/5.json".
Proof.
  intros o w.
  refine (user_group_fetch_address w 1%positive o (VInt 3) VNone _ _ _
            VNone (VInt 5) _ _); reflexivity.
Defined.

Lemma user_group_save_witness :
  let o := setattr (setattr (setattr (initialized (blank Classes.UserGroup))
                      "user" (VInt 3)) "group" (VInt 5)) "id" (VInt 12) in
  let w := @World offline {[ 1%positive := o ]} tt [] in
  UserGroup.save 1%positive w
  = (Raise (NotImplementedError "Cannot update a user-group."), w).
Proof.
  intros o w.
  refine (user_group_save w 1%positive o (VInt 3) _ _ (VInt 12) _); reflexivity.
Defined.

Lemma user_group_failed_fetch_blocks_save_witness :
  let o := setattr (setattr (initialized (blank Classes.UserGroup)) "user" (VInt 3))
             "group" VNone in
  let w := @World offline {[ 1%positive := o ]} tt [] in
  let failed := UserGroup.fetch 1%positive VNone VNone w in
  (exists message, failed.1 = Raise (ValueError message))
  /\ UserGroup.save 1%positive failed.2
     = (Raise (NotImplementedError "Cannot update a user-group."), failed.2)
  /\ calls failed.2 = [].
Proof.
  intros o w.
  refine (user_group_failed_fetch_blocks_save w 1%positive o (VInt 3) VNone _ _ _
            VNone VNone _); reflexivity.
Defined.

(** ** [Property]: the fetch by key *)

Section PropertyRuns.
Context {T : Transport}.

Lemma property_fetch_runs self (id key sid skey : value) h r c o :
  __dict__ o !! "id" = Some sid ->
  __dict__ o !! "key" = Some skey ->
  is_None key = false ->
  let e := setattr (setattr (with_id id o) "key" key) "_by_key" (VBool true) in
  Property.fetch self id key (World (T := T) (<[self := o]> h) r c)
  = (Ok (reply_ok (exchange T r GET_MODEL e).2),
     World (<[self := setattr (reply_entity (exchange T r GET_MODEL e).2)
                        "_by_key" (VBool false)]> h)
           (exchange T r GET_MODEL e).1
           (c ++ [Request GET_MODEL self e])%list).
Proof.
  intros Hid Hkey Hgiven e. unfold Property.fetch, bind. rewrite read_in.
  unfold attr at 1. rewrite Hid.
  rewrite Hgiven. unfold e, with_id.
  destruct (is_None sid && is_None id).
  - rewrite read_in. unfold attr at 1. rewrite Hkey. unfold ret at 1.
    rewrite andb_false_r.
    destruct (is_None id); cbn [negb]; [unfold ret at 1|rewrite write_in];
      rewrite !write_in, transport_in, write_in; reflexivity.
  - unfold ret at 1.
    destruct (is_None id); cbn [negb]; [unfold ret at 1|rewrite write_in];
      rewrite !write_in, transport_in, write_in; reflexivity.
Qed.
End PropertyRuns.

Section PropertyProperties.
Context {T : Transport}.
Variables (w : world T) (self : loc) (o : object) (sid skey c i : value).
Hypothesis Hself : heap w !! self = Some o.
Hypothesis Hid : __dict__ o !! "id" = Some sid.
Hypothesis Hkey : __dict__ o !! "key" = Some skey.
Hypothesis Hclass : __dict__ o !! "domainClassName" = Some c.
Hypothesis Hident : __dict__ o !! "domainIdent" = Some i.

(** X23. [Property.fetch] with a key makes one transport call, a get, with
    the entity that holds the key (and the identifier, when one is given)
    and is flagged as fetched by key; whatever the transport does, the
    flag is off after the call. When the owner's class, the owner's
    identifier and the key are all truthy, the resource of the entity
    handed over is [domain/<class>/<ident>/key/<key>/property.json]
    (without every [domain/] when the class is [annotation]); when one of
    them is falsy, as the empty key is, it is the resource that
    [DomainModel.uri] gives. *)
Theorem property_fetch_by_key (id key : value) :
  is_None key = false ->
  let e := setattr (setattr (with_id id o) "key" key) "_by_key" (VBool true) in
  let after := (Property.fetch self id key w).2 in
  let strip := fun uri : string =>
    if py_eq c (VStr "annotation") then replace "domain/" "" uri else uri in
  calls after = (calls w ++ [Request GET_MODEL self e])%list
  /\ attr_at after self "_by_key" = Some (Ok (VBool false))
  /\ Property.uri e
     = if truthy c && truthy i && truthy key then
         Ok (strip ("domain/" ++ str c ++ "/" ++ str i ++ "/key/" ++ str key
                    ++ "/property.json"))
       else and_then (DomainModel.uri e) (fun uri => Ok (strip uri)).
Proof.
  intros Hgiven e after strip.
  assert (Hc : __dict__ e !! "domainClassName" = Some c).
  { unfold e, with_id, setattr. destruct (is_None id); cbn [__dict__];
      rewrite !lookup_insert_ne by discriminate; exact Hclass. }
  assert (Hi : __dict__ e !! "domainIdent" = Some i).
  { unfold e, with_id, setattr. destruct (is_None id); cbn [__dict__];
      rewrite !lookup_insert_ne by discriminate; exact Hident. }
  assert (Hk : __dict__ e !! "key" = Some key).
  { unfold e, setattr. cbn [__dict__].
    rewrite lookup_insert_ne by discriminate. apply lookup_insert_eq. }
  assert (Hb : __dict__ e !! "_by_key" = Some (VBool true)).
  { unfold e, setattr. cbn [__dict__]. apply lookup_insert_eq. }
  split; [|split].
  - unfold after. destruct w as [h r l]; cbn [heap calls] in *.
    replace (World h r l) with (World (T := T) (<[self := o]> h) r l)
      by (rewrite (insert_id h self o Hself); reflexivity).
    rewrite (property_fetch_runs _ _ _ sid skey) by assumption. reflexivity.
  - unfold after. destruct w as [h r l]; cbn [heap calls] in *.
    replace (World h r l) with (World (T := T) (<[self := o]> h) r l)
      by (rewrite (insert_id h self o Hself); reflexivity).
    rewrite (property_fetch_runs _ _ _ sid skey) by assumption.
    unfold attr_at. cbn [snd heap]. rewrite lookup_insert_eq. cbn.
    unfold attr, setattr. cbn [__dict__]. rewrite lookup_insert_eq. reflexivity.
  - unfold Property.uri, Property.by_key, attr. rewrite Hb, Hc, Hi, Hk.
    cbn [and_then truthy negb].
    destruct (truthy c); cbn [negb andb and_then]; [|reflexivity].
    destruct (truthy i); cbn [negb andb and_then]; [|reflexivity].
    destruct (truthy key); cbn [negb andb and_then]; reflexivity.
Qed.
End PropertyProperties.

Lemma property_fetch_by_key_witness :
  let o := setattr (setattr
             (domain_initialized 7%positive (VStr "be.cytomine.project.Project")
                (VInt 42) (blank Classes.Property))
             "key" VNone) "_by_key" (VBool false) in
  let w := @World offline {[ 1%positive := o ]} tt [] in
  let e := setattr (setattr o "key" (VStr "colour")) "_by_key" (VBool true) in
  let after := (Property.fetch 1%positive VNone (VStr "colour") w).2 in
  calls after = [Request GET_MODEL 1%positive e]
  /\ attr_at after 1%positive "_by_key" = Some (Ok (VBool false))
  /\ Property.uri e
     = Ok "domain/be.cytomine.project.Project/42/key/colour/property.json".
Proof.
  intros o w.
  refine (property_fetch_by_key w 1%positive o VNone VNone
            (VStr "be.cytomine.project.Project") (VInt 42) _ _ _ _ _
            VNone (VStr "colour") _); reflexivity.
Defined.

(** X24. For a property of an annotation that is fetched by a truthy key
    on an owner with a truthy identifier, the resource is
    [annotation/] followed by the rest of the path with every [domain/]
    removed from it: the removal also reaches into the key. *)
Theorem annotation_property_address (o : object) (i key : value) :
  __dict__ o !! "_by_key" = Some (VBool true) ->
  __dict__ o !! "domainClassName" = Some (VStr "annotation") ->
  __dict__ o !! "domainIdent" = Some i ->
  __dict__ o !! "key" = Some key ->
  truthy i = true ->
  truthy key = true ->
  Property.uri o
  = Ok ("annotation/"
        ++ replace "domain/" "" (str i ++ "/key/" ++ str key ++ "/property.json")).
Proof.
  intros Hb Hc Hi Hk Hti Htk.
  unfold Property.uri, Property.by_key, attr. rewrite Hb, Hc, Hi, Hk.
  cbn [and_then truthy negb]. rewrite Hti, Htk. reflexivity.
Qed.

Lemma annotation_property_address_witness :
  let o := setattr (setattr
             (domain_initialized 7%positive (VStr "annotation") (VInt 5)
                (blank Classes.Property))
             "key" (VStr "domain/x")) "_by_key" (VBool true) in
  Property.uri o = Ok "annotation/5/key/x/property.json".
Proof.
  intros o.
  refine (annotation_property_address o (VInt 5) (VStr "domain/x") _ _ _ _ _ _);
    reflexivity.
Defined.

(** ** [fetch_with_filter] *)

Section Filtered.
Local Open Scope list_scope.
Context {S : Collection.session}.

Lemma dict_set_not_empty (key : string) (v : value) (d : pydict) :
  dict_set key v d ≠ [].
Proof.
  intros H. apply (f_equal length) in H. rewrite dict_set_length in H.
  destruct (dict_has key d) eqn:Hhas; [|discriminate].
  destruct d; [discriminate Hhas|discriminate H].
Qed.

(** X25. [fetch_with_filter] called with no page size, or with the page
    size 0, is never refused for want of a filter: whatever the collection
    and the keys it allows, the transport is called once, with the
    collection filtered by the key, which keeps its other filters. *)
Theorem fetch_with_filter_not_refused (s : Collection.fetching S) (fuel : nat)
    (key : string) (value : py_value) (max : option Z) :
  let self' :=
    Collection.set_filters
      (dict_set key value (Collection._filters (Collection.this_collection s)))
      (Collection.this_collection s) in
  (max = None \/ max = Some 0%Z) ->
  (exists ok,
      (Collection.fetch_with_filter fuel key value max s).1 = Ok (Some ok))
  /\ Collection.requests (Collection.fetch_with_filter fuel key value max s).2
     = Collection.requests s ++ [(self', false)]
  /\ Collection.is_filtered_by self' key = true
  /\ (forall other,
        Collection.is_filtered_by (Collection.this_collection s) other = true ->
        Collection.is_filtered_by self' other = true).
Proof.
  intros self' Hmax.
  assert (Hrun : Collection.fetch_with_filter fuel key value max s
                 = (ok <~ Collection._fetch false ;; ret (Some ok))
                     (Collection.Fetching self' (Collection.remote_now s)
                        (Collection.requests s))).
  { unfold Collection.fetch_with_filter, Collection.fetch, Collection.assign.
    destruct Hmax as [-> | ->]; reflexivity. }
  rewrite Hrun. unfold bind. rewrite fetch_runs_on.
  - cbn [fst snd ret Collection.requests Collection.this_collection].
    split; [eexists; reflexivity|]. split; [reflexivity|].
    unfold Collection.is_filtered_by, self'. cbn [Collection._filters Collection.set_filters].
    split.
    + rewrite dict_has_set, String.eqb_refl. reflexivity.
    + intros other Hother. rewrite dict_has_set, Hother.
      destruct (String.eqb key other); reflexivity.
  - left. cbn. apply dict_set_not_empty.
Qed.
End Filtered.

Lemma fetch_with_filter_not_refused_witness :
  let self := Collection.Make "UserCollection" None Classes.User []
                [Some "project"] [] 0 None (Some 0%Z) 0 in
  let s := @Collection.Fetching (empty_pages 25) self tt [] in
  Collection.requests (Collection.fetch_with_filter 0 "group" (VInt 3) None s).2
  = [(Collection.set_filters [("group", VInt 3)] self, false)].
Proof.
  intros self s.
  refine (proj1 (proj2 (@fetch_with_filter_not_refused (empty_pages 25) s 0
                          "group" (VInt 3) None _))).
  left. reflexivity.
Defined.

(** ** Where the identifier of an entity is assigned *)



Section Identifiers.
Context {T : Transport}.
Implicit Types (h : gmap loc object) (r : server T) (c : list request).


















End Identifiers.



